(** * RFKC client project: pipeline, form, credential and store layers

    A shallow embedding of the server routes of the pipeline router
    (the express router of [src/src/index.jsx]), the form router
    ([src/server/routes/form.router.js]), the credential module
    ([src/server/modules/encryption.js]) and the pipeline slice of the
    client store ([src/src/zustand/store.js]), followed by the properties
    of the specification that concern them.

    The database is a record of tables, each table a list of rows; every
    SQL statement of the routers is a function on that record whose
    positional parameters [$1], [$2], ... are the arguments [p1], [p2], ...
    in the order in which the handler hands them to [pool.query]. *)

From Stdlib Require Import ZArith List String Ascii Bool Lia.
From Stdlib Require Import Sorting.Sorted Sorting.Permutation.
From Stdlib Require Import DecimalString DecimalZ DecimalFacts.
Import ListNotations.

Set Warnings "-register-all".

Local Open Scope string_scope.
Local Open Scope list_scope.
Local Open Scope Z_scope.

(* ================================================================== *)
(** * Part I. The model *)
(* ================================================================== *)

(** ** Values that travel from a request to the database driver *)

Module Pg.

(** What a handler reads from [req.params] and [req.body]: a route
    parameter is always a string, a JSON field is a number, a string or
    absent. *)
Inductive jsval : Type :=
| JUndefined
| JNumber (z : Z)
| JString (s : string).

(** Decimal notation of an integer, as [String(n)] prints it. *)
Definition show_int (z : Z) : string :=
  NilZero.string_of_int (Z.to_int z).

(** The digits, as characters. *)
Definition decimal_digits : list ascii :=
  ["0"; "1"; "2"; "3"; "4"; "5"; "6"; "7"; "8"; "9"]%char.

(** The characters the server skips around the notation of an integer:
    the blank, and the control characters 9 to 13. *)
Definition is_blank (c : ascii) : bool :=
  existsb (Ascii.eqb c) [" "; "009"; "010"; "011"; "012"; "013"]%char.

Fixpoint skip_blanks (s : string) : string :=
  match s with
  | EmptyString => EmptyString
  | String c s' => if is_blank c then skip_blanks s' else s
  end.

Fixpoint all_blank (s : string) : bool :=
  match s with
  | EmptyString => true
  | String c s' => is_blank c && all_blank s'
  end.

Fixpoint drop_trailing_blanks (s : string) : string :=
  match s with
  | EmptyString => EmptyString
  | String c s' =>
      if all_blank s then EmptyString else String c (drop_trailing_blanks s')
  end.

(** One decimal digit at least and nothing else, blanks after the last
    digit apart. *)
Definition unsigned (s : string) : option Decimal.uint :=
  NilZero.uint_of_string (drop_trailing_blanks s).

(** The integer a text denotes for the server, [None] when the text is no
    integer (the server's "invalid input syntax for type integer"): blanks,
    an optional sign, decimal digits, blanks.  The range of an integer
    column is not checked here: [int4] below is that range, the ids of
    rows are within it, and a property that sends another id assumes that
    it is. *)
Definition parse_int (s : string) : option Z :=
  match skip_blanks s with
  | String "-" r =>
      option_map (fun d => Z.of_int (Decimal.Neg d)) (unsigned r)
  | String "+" r =>
      option_map (fun d => Z.of_int (Decimal.Pos d)) (unsigned r)
  | r => option_map (fun d => Z.of_int (Decimal.Pos d)) (unsigned r)
  end.

(** The values of an [integer] column. *)
Definition int4 (z : Z) : Prop := -2147483648 <= z <= 2147483647.

(** The driver sends every parameter as text; [undefined] goes as NULL. *)
Definition prepareValue (v : jsval) : option string :=
  match v with
  | JUndefined => None
  | JNumber z => Some (show_int z)
  | JString s => Some s
  end.

(** A parameter compared with or stored in an integer column:
    [None] is a rejected query, [Some None] is NULL. *)
Definition as_int (v : jsval) : option (option Z) :=
  match prepareValue v with
  | None => Some None
  | Some s =>
      match parse_int s with
      | Some z => Some (Some z)
      | None => None
      end
  end.

(** A parameter stored in a text column; [None] is NULL. *)
Definition as_text (v : jsval) : option string := prepareValue v.

(** [column = $n] in a WHERE clause: never true against NULL. *)
Definition int_eq (column : Z) (p : option Z) : bool :=
  match p with
  | Some z => column =? z
  | None => false
  end.

End Pg.

(** ** Tables

    The schema file is not among the sources.  Each table below has the
    columns that the specification's data model gives it, restricted to
    the ones the statements of the routers name.  Every column is NOT NULL
    (posting a pipeline without a name is refused) and [id] columns are
    serial.  A pipeline_status row belongs to a pipeline and a user_status
    row to a user and a pipeline_status: such a row can only be written
    when the row it names exists, and it is deleted with that row (the
    cascade the router's comments and the specification speak of). *)

Module Pipeline.
(** Modelled from the spec: table [pipeline] (Pipeline: id, name); its
    declaration is in the schema file, which is missing. *)
Record row : Type := { id : Z; name : string }.
End Pipeline.

Module PipelineStatus.
(** Modelled from the spec: table [pipeline_status] (PipelineStatus: id,
    pipeline_id, name, order; belongs to Pipeline); its declaration is in
    the schema file, which is missing. *)
Record row : Type :=
  { id : Z; pipeline_id : Z; name : string; order : Z }.
End PipelineStatus.

Module UserStatus.
(** Modelled from the spec: table [user_status] (UserStatus: user_id,
    pipeline_status_id; belongs to User and PipelineStatus); its
    declaration is in the schema file, which is missing.  The second
    column has the name by which the Kanban query and the UPDATE of the
    move name it. *)
Record row : Type := { user_id : Z; pipeline_status_id : Z }.

(** The column a statement names, [None] when the table has none of that
    name.  A column has one name: [p_s_id], the abbreviation the data
    model also writes, names none. *)
Definition column (c : string) : option (row -> Z) :=
  if String.eqb c "user_id" then Some user_id
  else if String.eqb c "pipeline_status_id" then Some pipeline_status_id
  else None.
End UserStatus.

Module User.
(** Modelled from the spec: table [user] (User: id, username, first_name,
    last_name, email); its declaration is in the schema file, which is
    missing. *)
Record row : Type :=
  { id : Z; username : string; first_name : string;
    last_name : string; email : string }.
End User.

Module Forms.
(** Modelled from the spec: table [forms] (Form: id, name); its
    declaration is in the schema file, which is missing. *)
Record row : Type := { id : Z; name : string }.
End Forms.

Module Sections.
(** Modelled from the spec: table [sections] (Section: id, form_id, name,
    description, order); its declaration is in the schema file, which is
    missing. *)
Record row : Type :=
  { id : Z; form_id : Z; name : string; description : string; order : Z }.
End Sections.

Module Question.
(** Modelled from the spec: table [question] (Question: id, section_id,
    question, description, order, answer_type, archived); its declaration
    is in the schema file, which is missing. *)
Record row : Type :=
  { id : Z; section_id : Z; question : string; description : string;
    order : Z; answer_type : string; archived : bool }.
End Question.

Module MCAnswer.
(** Modelled from the spec: table [multiple_choice_answers] (MCAnswer: id,
    question_id, answer); its declaration is in the schema file, which is
    missing. *)
Record row : Type := { id : Z; question_id : Z; answer : string }.
End MCAnswer.

(** The tables, and for each serial [id] column that a route of the
    sources writes the next value of its sequence.  A sequence does not
    go back: a row that a constraint refuses has drawn its value. *)
Record database : Type :=
  { pipeline : list Pipeline.row;
    pipeline_id_seq : Z;
    pipeline_status : list PipelineStatus.row;
    pipeline_status_id_seq : Z;
    user_status : list UserStatus.row;
    user : list User.row;
    forms : list Forms.row;
    forms_id_seq : Z;
    sections : list Sections.row;
    question : list Question.row;
    multiple_choice_answers : list MCAnswer.row }.

Definition with_pipeline (db : database) (t : list Pipeline.row) (seq : Z)
  : database :=
  {| pipeline := t; pipeline_id_seq := seq;
     pipeline_status := pipeline_status db;
     pipeline_status_id_seq := pipeline_status_id_seq db;
     user_status := user_status db; user := user db;
     forms := forms db; forms_id_seq := forms_id_seq db;
     sections := sections db; question := question db;
     multiple_choice_answers := multiple_choice_answers db |}.

Definition with_pipeline_status (db : database)
  (t : list PipelineStatus.row) (seq : Z) : database :=
  {| pipeline := pipeline db; pipeline_id_seq := pipeline_id_seq db;
     pipeline_status := t; pipeline_status_id_seq := seq;
     user_status := user_status db; user := user db;
     forms := forms db; forms_id_seq := forms_id_seq db;
     sections := sections db; question := question db;
     multiple_choice_answers := multiple_choice_answers db |}.

Definition with_user_status (db : database) (t : list UserStatus.row)
  : database :=
  {| pipeline := pipeline db; pipeline_id_seq := pipeline_id_seq db;
     pipeline_status := pipeline_status db;
     pipeline_status_id_seq := pipeline_status_id_seq db;
     user_status := t; user := user db;
     forms := forms db; forms_id_seq := forms_id_seq db;
     sections := sections db; question := question db;
     multiple_choice_answers := multiple_choice_answers db |}.

Definition with_forms (db : database) (t : list Forms.row) (seq : Z)
  : database :=
  {| pipeline := pipeline db; pipeline_id_seq := pipeline_id_seq db;
     pipeline_status := pipeline_status db;
     pipeline_status_id_seq := pipeline_status_id_seq db;
     user_status := user_status db; user := user db;
     forms := t; forms_id_seq := seq;
     sections := sections db; question := question db;
     multiple_choice_answers := multiple_choice_answers db |}.

Definition with_question (db : database) (t : list Question.row)
  : database :=
  {| pipeline := pipeline db; pipeline_id_seq := pipeline_id_seq db;
     pipeline_status := pipeline_status db;
     pipeline_status_id_seq := pipeline_status_id_seq db;
     user_status := user_status db; user := user db;
     forms := forms db; forms_id_seq := forms_id_seq db;
     sections := sections db; question := t;
     multiple_choice_answers := multiple_choice_answers db |}.

(** How an INSERT into a table with a serial id ends: the row is taken
    or refused, and either way the statement leaves tables.  The server
    checks the text of the parameters before it runs the statement, and
    the constraints of the table after it has drawn the id of the new
    row. *)
Inductive insertion : Type :=
| Inserted (db' : database)
| Refused (db' : database).

(** ** The pipeline router ([src/src/index.jsx], from its line 16 on) *)

Module PipelineRouter.

Import Pg.

(** A row of the Kanban query, with the aliases of its SELECT list. *)
Record kanban_row : Type :=
  { pipeline_name : string;
    pipeline_status_id : Z;
    pipeline_status_name : string;
    order : Z;
    user_id : Z;
    username : string }.

(** *** Statements *)

(** [SELECT "name" FROM "pipeline"] *)
Definition select_pipeline_names (db : database) : list string :=
  map Pipeline.name (pipeline db).

(** The FROM ... JOIN ... ON chain of the Kanban query, before WHERE and
    ORDER BY: one row per user_status row and per pipeline_status,
    pipeline and user row that its ON conditions match. *)
Definition kanban_join (db : database)
  : list (UserStatus.row * PipelineStatus.row * Pipeline.row * User.row) :=
  flat_map (fun us =>
    flat_map (fun ps =>
      if UserStatus.pipeline_status_id us =? PipelineStatus.id ps then
        flat_map (fun p =>
          if PipelineStatus.pipeline_id ps =? Pipeline.id p then
            flat_map (fun u =>
              if UserStatus.user_id us =? User.id u
              then [(us, ps, p, u)] else [])
              (user db)
          else [])
          (pipeline db)
      else [])
      (pipeline_status db))
    (user_status db).

(** The SELECT list of the Kanban query. *)
Definition kanban_select
  (t : UserStatus.row * PipelineStatus.row * Pipeline.row * User.row)
  : kanban_row :=
  let '(us, ps, p, u) := t in
  {| pipeline_name := Pipeline.name p;
     pipeline_status_id := PipelineStatus.id ps;
     pipeline_status_name := PipelineStatus.name ps;
     order := PipelineStatus.order ps;
     user_id := User.id u;
     username := User.username u |}.

(** [ORDER BY pipeline_status.order]: ascending.  The server fixes no
    order among rows of equal order; here they keep the order of the
    join. *)
Fixpoint insert_by_order (r : kanban_row) (l : list kanban_row)
  : list kanban_row :=
  match l with
  | [] => [r]
  | x :: l' =>
      if order r <=? order x then r :: x :: l' else x :: insert_by_order r l'
  end.

Definition order_by (l : list kanban_row) : list kanban_row :=
  fold_right insert_by_order [] l.

(** The Kanban query of [GET /:pipelineId]. *)
Definition select_kanban (p1 : jsval) (db : database)
  : option (list kanban_row) :=
  match as_int p1 with
  | None => None
  | Some id =>
      Some (order_by
              (map kanban_select
                 (filter (fun t => let '(_, _, p, _) := t in
                                   int_eq (Pipeline.id p) id)
                    (kanban_join db))))
  end.

(** [INSERT INTO "pipeline" ("name") VALUES ($1)]; rejected when the name
    is NULL. *)
Definition insert_pipeline (p1 : jsval) (db : database) : insertion :=
  match as_text p1 with
  | None =>
      Refused (with_pipeline db (pipeline db) (pipeline_id_seq db + 1))
  | Some n =>
      Inserted (with_pipeline db
                   (pipeline db ++ [ {| Pipeline.id := pipeline_id_seq db;
                                        Pipeline.name := n |} ])
                   (pipeline_id_seq db + 1))
  end.

(** [DELETE FROM "pipeline" WHERE id=$1], with the statuses of the deleted
    pipelines and the user_status rows of those statuses. *)
Definition delete_pipeline (p1 : jsval) (db : database) : option database :=
  match as_int p1 with
  | None => None
  | Some id =>
      let gone :=
        filter (fun p => int_eq (Pipeline.id p) id) (pipeline db) in
      let gone_status :=
        filter (fun s => existsb (fun p => PipelineStatus.pipeline_id s
                                           =? Pipeline.id p) gone)
          (pipeline_status db) in
      Some
        {| pipeline :=
             filter (fun p => negb (int_eq (Pipeline.id p) id)) (pipeline db);
           pipeline_id_seq := pipeline_id_seq db;
           pipeline_status :=
             filter (fun s => negb (existsb
                        (fun p => PipelineStatus.pipeline_id s
                                  =? Pipeline.id p) gone))
               (pipeline_status db);
           pipeline_status_id_seq := pipeline_status_id_seq db;
           user_status :=
             filter (fun us => negb (existsb
                        (fun s => UserStatus.pipeline_status_id us
                                  =? PipelineStatus.id s) gone_status))
               (user_status db);
           user := user db;
           forms := forms db; forms_id_seq := forms_id_seq db;
           sections := sections db; question := question db;
           multiple_choice_answers := multiple_choice_answers db |}
  end.

(** [UPDATE "pipeline" SET "name"=$1 WHERE "id"= $2]; rejected when the id
    is no integer, or when a row is to be given the name NULL. *)
Definition update_pipeline_name (p1 p2 : jsval) (db : database)
  : option database :=
  match as_int p2 with
  | None => None
  | Some id =>
      if existsb (fun p => int_eq (Pipeline.id p) id) (pipeline db) then
        match as_text p1 with
        | None => None
        | Some n =>
            Some (with_pipeline db
                    (map (fun p => if int_eq (Pipeline.id p) id
                                   then {| Pipeline.id := Pipeline.id p;
                                           Pipeline.name := n |}
                                   else p)
                       (pipeline db))
                    (pipeline_id_seq db))
        end
      else Some db
  end.

(** [INSERT INTO "pipeline_status" ("pipeline_id", "order", "name")
     VALUES ($1, $2, $3)]; rejected when a value is NULL or no integer
    where one is due, or when no pipeline has the id [$1]. *)
Definition insert_pipeline_status (p1 p2 p3 : jsval) (db : database)
  : insertion :=
  let drawn :=
    with_pipeline_status db (pipeline_status db)
      (pipeline_status_id_seq db + 1) in
  match as_int p1, as_int p2 with
  | Some pid, Some o =>
      match pid, o, as_text p3 with
      | Some pid', Some o', Some n =>
          if existsb (fun p => Pipeline.id p =? pid') (pipeline db) then
            Inserted
              (with_pipeline_status db
                 (pipeline_status db ++
                  [ {| PipelineStatus.id := pipeline_status_id_seq db;
                       PipelineStatus.pipeline_id := pid';
                       PipelineStatus.name := n;
                       PipelineStatus.order := o' |} ])
                 (pipeline_status_id_seq db + 1))
          else Refused drawn
      | _, _, _ => Refused drawn
      end
  | _, _ => Refused db
  end.

(** [DELETE FROM "pipeline_status" WHERE id=$1], with the user_status rows
    of the deleted statuses. *)
Definition delete_pipeline_status (p1 : jsval) (db : database)
  : option database :=
  match as_int p1 with
  | None => None
  | Some id =>
      let gone :=
        filter (fun s => int_eq (PipelineStatus.id s) id)
          (pipeline_status db) in
      Some
        {| pipeline := pipeline db;
           pipeline_id_seq := pipeline_id_seq db;
           pipeline_status :=
             filter (fun s => negb (int_eq (PipelineStatus.id s) id))
               (pipeline_status db);
           pipeline_status_id_seq := pipeline_status_id_seq db;
           user_status :=
             filter (fun us => negb (existsb
                        (fun s => UserStatus.pipeline_status_id us
                                  =? PipelineStatus.id s) gone))
               (user_status db);
           user := user db;
           forms := forms db; forms_id_seq := forms_id_seq db;
           sections := sections db; question := question db;
           multiple_choice_answers := multiple_choice_answers db |}
  end.

(** [UPDATE "pipeline_status" SET "order"=$1, "name"=$2 WHERE "id"= $3];
    rejected when [$1] or [$3] is no integer, or when a row is to be given
    a NULL. *)
Definition update_pipeline_status (p1 p2 p3 : jsval) (db : database)
  : option database :=
  match as_int p1, as_int p3 with
  | Some o, Some id =>
      if existsb (fun s => int_eq (PipelineStatus.id s) id)
           (pipeline_status db) then
        match o, as_text p2 with
        | Some o', Some n =>
            Some (with_pipeline_status db
                    (map (fun s =>
                            if int_eq (PipelineStatus.id s) id
                            then {| PipelineStatus.id := PipelineStatus.id s;
                                    PipelineStatus.pipeline_id :=
                                      PipelineStatus.pipeline_id s;
                                    PipelineStatus.name := n;
                                    PipelineStatus.order := o' |}
                            else s)
                       (pipeline_status db))
                    (pipeline_status_id_seq db))
        | _, _ => None
        end
      else Some db
  | _, _ => None
  end.

(** [INSERT INTO "user_status" ("user_id", "p_s_id") VALUES ($1, $2)]:
    the server resolves both column names against user_status before it
    looks at any parameter, and rejects the statement when one of them
    names no column; after that, rejected when a value is NULL or no
    integer, or when no user has the id [$1] or no pipeline_status the id
    [$2]. *)
Definition insert_user_status (p1 p2 : jsval) (db : database)
  : option database :=
  match UserStatus.column "user_id", UserStatus.column "p_s_id" with
  | Some _, Some _ =>
      match as_int p1, as_int p2 with
      | Some (Some uid), Some (Some sid) =>
          if existsb (fun u => User.id u =? uid) (user db)
             && existsb (fun s => PipelineStatus.id s =? sid)
                  (pipeline_status db)
          then
            Some (with_user_status db
                    (user_status db ++
                     [ {| UserStatus.user_id := uid;
                          UserStatus.pipeline_status_id := sid |} ]))
          else None
      | _, _ => None
      end
  | _, _ => None
  end.

(** [UPDATE "user_status" SET "pipeline_status_id" = $1
     WHERE "user_id" = $2]; rejected when a parameter is no integer, or
    when a row is to be given NULL or the id of no pipeline_status. *)
Definition update_user_status (p1 p2 : jsval) (db : database)
  : option database :=
  match as_int p1, as_int p2 with
  | Some sid, Some uid =>
      if existsb (fun us => int_eq (UserStatus.user_id us) uid)
           (user_status db) then
        match sid with
        | Some sid' =>
            if existsb (fun s => PipelineStatus.id s =? sid')
                 (pipeline_status db) then
              Some (with_user_status db
                      (map (fun us =>
                              if int_eq (UserStatus.user_id us) uid
                              then {| UserStatus.user_id :=
                                        UserStatus.user_id us;
                                      UserStatus.pipeline_status_id := sid' |}
                              else us)
                         (user_status db)))
            else None
        | None => None
        end
      else Some db
  | _, _ => None
  end.

(** [DELETE FROM "user_status" WHERE "user_id" = $1 and "pipeline_id" = $2]:
    the server resolves both column names against user_status before it
    looks at any row or parameter, and rejects the statement when one of
    them names no column. *)
Definition delete_user_status (p1 p2 : jsval) (db : database)
  : option database :=
  match UserStatus.column "user_id", UserStatus.column "pipeline_id" with
  | Some c1, Some c2 =>
      match as_int p1, as_int p2 with
      | Some uid, Some pid =>
          Some (with_user_status db
                  (filter (fun us => negb (int_eq (c1 us) uid
                                           && int_eq (c2 us) pid))
                     (user_status db)))
      | _, _ => None
      end
  | _, _ => None
  end.

(** *** Requests and responses *)

Record request : Type :=
  { authenticated : bool;
    params : list (string * string);
    body : list (string * jsval) }.

Fixpoint lookup {A : Type} (k : string) (l : list (string * A)) : option A :=
  match l with
  | [] => None
  | (k', v) :: l' => if String.eqb k k' then Some v else lookup k l'
  end.

(** [req.params.k] *)
Definition param (req : request) (k : string) : jsval :=
  match lookup k (params req) with
  | Some s => JString s
  | None => JUndefined
  end.

(** [req.body.k] *)
Definition field (req : request) (k : string) : jsval :=
  match lookup k (body req) with
  | Some v => v
  | None => JUndefined
  end.

Inductive payload : Type :=
| NoRows
| Names (rows : list string)
| Kanban (rows : list kanban_row).

Record response : Type := { status : Z; sent : payload }.

Definition sendStatus (code : Z) : response :=
  {| status := code; sent := NoRows |}.

Definition json (rows : payload) : response :=
  {| status := 200; sent := rows |}.

Definition handler : Type := request -> database -> response * database.

(** [pool.query(text, values).then(...).catch(...)] of a statement that
    draws no id: the response of [then] with the new tables when the query
    is fulfilled, the response of [catch] with the old ones when it is
    rejected. *)
Definition query_then_catch (q : option database) (db : database)
  (ok err : Z) : response * database :=
  match q with
  | Some db' => (sendStatus ok, db')
  | None => (sendStatus err, db)
  end.

(** The same of an INSERT that draws an id: either response comes with
    the tables the statement has left. *)
Definition insert_then_catch (q : insertion) (ok err : Z)
  : response * database :=
  match q with
  | Inserted db' => (sendStatus ok, db')
  | Refused db' => (sendStatus err, db')
  end.

(** *** Handlers, in the order of the file *)

(** [router.get('/', ...)] *)
Definition get_root : handler := fun req db =>
  (json (Names (select_pipeline_names db)), db).

(** [router.get('/:pipelineId', ...)] *)
Definition get_pipelineId : handler := fun req db =>
  let pipelineId := param req "pipelineId" in
  match select_kanban pipelineId db with
  | Some rows => (json (Kanban rows), db)
  | None => (sendStatus 500, db)
  end.

(** [router.post('/', rejectUnauthenticated, ...)] *)
Definition post_root : handler := fun req db =>
  insert_then_catch (insert_pipeline (field req "name") db) 201 400.

(** [router.delete('/:id', rejectUnauthenticated, ...)] *)
Definition delete_id : handler := fun req db =>
  let pipelineId := param req "id" in
  query_then_catch (delete_pipeline pipelineId db) db 204 500.

(** [router.put('/:id', rejectUnauthenticated, ...)] *)
Definition put_id : handler := fun req db =>
  let pipelineId := param req "id" in
  let newPipelineName := field req "name" in
  query_then_catch (update_pipeline_name newPipelineName pipelineId db)
    db 200 500.

(** [router.post('/status', rejectUnauthenticated, ...)] *)
Definition post_status : handler := fun req db =>
  insert_then_catch
    (insert_pipeline_status (field req "pipeline_id") (field req "order")
       (field req "name") db)
    201 500.

(** [router.delete('/pipeline_status/:id', rejectUnauthenticated, ...)] *)
Definition delete_pipeline_status_id : handler := fun req db =>
  let pipelineStatusId := param req "id" in
  query_then_catch (delete_pipeline_status pipelineStatusId db) db 204 500.

(** [router.put('pipeline_status/:id', rejectUnauthenticated, ...)]: the
    values are handed over as [[pipelineStatusId, pipelineStatusOrder,
    pipelineStatusName]]. *)
Definition put_pipeline_status_id : handler := fun req db =>
  let pipelineStatusId := param req "id" in
  let pipelineStatusOrder := field req "order" in
  let pipelineStatusName := field req "name" in
  query_then_catch
    (update_pipeline_status pipelineStatusId pipelineStatusOrder
       pipelineStatusName db)
    db 200 500.

(** [router.post('/user_status', rejectUnauthenticated, ...)] *)
Definition post_user_status : handler := fun req db =>
  query_then_catch
    (insert_user_status (field req "user_id") (field req "p_s_id") db)
    db 201 500.

(** [router.put('/user_status/:userId', rejectUnauthenticated, ...)] *)
Definition put_user_status_userId : handler := fun req db =>
  let userId := param req "userId" in
  let newPipelineStatusId := field req "pipeline_status_id" in
  query_then_catch (update_user_status newPipelineStatusId userId db)
    db 200 500.

(** [router.put('/user_status/remove', rejectUnauthenticated, ...)] *)
Definition put_user_status_remove : handler := fun req db =>
  let userId := field req "user_id" in
  let pipelineId := field req "pipeline_id" in
  query_then_catch (delete_user_status userId pipelineId db) db 204 500.

(** *** Routing *)

Inductive method : Type := GET | POST | PUT | DELETE.

Definition method_eqb (a b : method) : bool :=
  match a, b with
  | GET, GET | POST, POST | PUT, PUT | DELETE, DELETE => true
  | _, _ => false
  end.

(** The pieces of a path between its slashes: ["/a/b"] gives
    [[""; "a"; "b"]], ["a/b"] gives [["a"; "b"]]. *)
Fixpoint segments (s : string) : list string :=
  match s with
  | EmptyString => [EmptyString]
  | String c s' =>
      if Ascii.eqb c "/"%char then EmptyString :: segments s'
      else match segments s' with
           | [] => [String c EmptyString]
           | seg :: rest => String c seg :: rest
           end
  end.

(** A route path matched piece by piece against a request path: a piece
    [:k] of the route takes any non-empty piece of the request and binds
    [k] to it, any other piece must be met literally, and the request may
    end in one more slash. *)
Fixpoint match_segments (route path : list string)
  : option (list (string * string)) :=
  match route, path with
  | [], [] => Some []
  | [], [EmptyString] => Some []
  | String ":"%char k :: route', seg :: path' =>
      match seg with
      | EmptyString => None
      | _ =>
          match match_segments route' path' with
          | Some bound => Some ((k, seg) :: bound)
          | None => None
          end
      end
  | lit :: route', seg :: path' =>
      if String.eqb lit seg then match_segments route' path' else None
  | _, _ => None
  end.

Definition match_path (route path : string)
  : option (list (string * string)) :=
  match_segments (segments route) (segments path).

(** Modelled from the spec: the authentication middleware is not among
    the sources; it lets an authenticated request through to the handler
    and answers any other itself, here with 403. *)
Definition rejectUnauthenticated (h : handler) : handler := fun req db =>
  if authenticated req then h req db else (sendStatus 403, db).

Record route : Type :=
  { verb : method; path : string; run : handler }.

(** The routes of the router, in the order in which the file registers
    them. *)
Definition router : list route :=
  [ {| verb := GET; path := "/"; run := get_root |};
    {| verb := GET; path := "/:pipelineId"; run := get_pipelineId |};
    {| verb := POST; path := "/"; run := rejectUnauthenticated post_root |};
    {| verb := DELETE; path := "/:id";
       run := rejectUnauthenticated delete_id |};
    {| verb := PUT; path := "/:id"; run := rejectUnauthenticated put_id |};
    {| verb := POST; path := "/status";
       run := rejectUnauthenticated post_status |};
    {| verb := DELETE; path := "/pipeline_status/:id";
       run := rejectUnauthenticated delete_pipeline_status_id |};
    {| verb := PUT; path := "pipeline_status/:id";
       run := rejectUnauthenticated put_pipeline_status_id |};
    {| verb := POST; path := "/user_status";
       run := rejectUnauthenticated post_user_status |};
    {| verb := PUT; path := "/user_status/:userId";
       run := rejectUnauthenticated put_user_status_userId |};
    {| verb := PUT; path := "/user_status/remove";
       run := rejectUnauthenticated put_user_status_remove |} ].

(** A request as it reaches the router: the first route with the
    request's method whose path matches handles it, with the pieces it
    bound as [req.params]; no handler of this file passes a request on.
    [None]: no route of the router takes the request. *)
Fixpoint dispatch (routes : list route) (m : method) (url : string)
  (auth : bool) (json_body : list (string * jsval)) (db : database)
  : option (response * database) :=
  match routes with
  | [] => None
  | r :: routes' =>
      if method_eqb (verb r) m then
        match match_path (path r) url with
        | Some bound =>
            Some (run r {| authenticated := auth; params := bound;
                           body := json_body |} db)
        | None => dispatch routes' m url auth json_body db
        end
      else dispatch routes' m url auth json_body db
  end.

End PipelineRouter.

(** ** The form router ([src/server/routes/form.router.js]) *)

Module FormRouter.

Import Pg.

(** The objects the nested [json_build_object] calls of
    [GET /:formId/all] build, one record per value of their ['type'] key
    (held in the first field), with the keys in the order of the query.
    A question object carries no id. *)
Record mc_answer_json : Type :=
  { mc_type : string; mc_id : Z; mc_answer : string }.

Record question_json : Type :=
  { q_type : string;
    q_question : string;
    q_description : string;
    q_order : Z;
    q_answer_type : string;
    q_multiple_choice_answers : option (list mc_answer_json) }.

Record section_json : Type :=
  { s_type : string;
    s_id : Z;
    s_order : Z;
    s_name : string;
    s_description : string;
    s_questions : option (list question_json) }.

Record form_json : Type :=
  { f_type : string;
    f_id : Z;
    f_name : string;
    f_sections : option (list section_json) }.

(** [json_agg] over the rows of a subquery: NULL when there is no row. *)
Definition json_agg {A : Type} (rows : list A) : option (list A) :=
  match rows with
  | [] => None
  | _ => Some rows
  end.

Definition mc_answer_object (a : MCAnswer.row) : mc_answer_json :=
  {| mc_type := "MCAnswer";
     mc_id := MCAnswer.id a;
     mc_answer := MCAnswer.answer a |}.

Definition question_object (db : database) (q : Question.row)
  : question_json :=
  {| q_type := "Question";
     q_question := Question.question q;
     q_description := Question.description q;
     q_order := Question.order q;
     q_answer_type := Question.answer_type q;
     q_multiple_choice_answers :=
       json_agg
         (map mc_answer_object
            (filter (fun a => MCAnswer.question_id a =? Question.id q)
               (multiple_choice_answers db))) |}.

Definition section_object (db : database) (s : Sections.row)
  : section_json :=
  {| s_type := "Section";
     s_id := Sections.id s;
     s_order := Sections.order s;
     s_name := Sections.name s;
     s_description := Sections.description s;
     s_questions :=
       json_agg
         (map (question_object db)
            (filter (fun q => (Question.section_id q =? Sections.id s)
                              && Bool.eqb (Question.archived q) false)
               (question db))) |}.

Definition form_object (db : database) (f : Forms.row) : form_json :=
  {| f_type := "Form";
     f_id := Forms.id f;
     f_name := Forms.name f;
     f_sections :=
       json_agg
         (map (section_object db)
            (filter (fun s => Sections.form_id s =? Forms.id f)
               (sections db))) |}.

(** The query of [GET /:formId/all]: one row per form whose id is [$1]
    ([id] is the key the rows are grouped by). *)
Definition select_form_all (p1 : jsval) (db : database)
  : option (list form_json) :=
  match as_int p1 with
  | None => None
  | Some id =>
      Some (map (form_object db)
              (filter (fun f => int_eq (Forms.id f) id) (forms db)))
  end.

(** [insert into forms("name") values($1)]; rejected when the name is
    NULL. *)
Definition insert_form (p1 : jsval) (db : database) : insertion :=
  match as_text p1 with
  | None => Refused (with_forms db (forms db) (forms_id_seq db + 1))
  | Some n =>
      Inserted (with_forms db
                  (forms db ++ [ {| Forms.id := forms_id_seq db;
                                    Forms.name := n |} ])
                  (forms_id_seq db + 1))
  end.

Inductive payload : Type :=
| NoRows
| FormRows (rows : list Forms.row)
| Document (doc : option form_json).

Record response : Type := { status : Z; sent : payload }.

(** [router.get('/', ...)]: [select * from forms] *)
Definition get_root (db : database) : response * database :=
  ({| status := 200; sent := FormRows (forms db) |}, db).

(** [router.get('/:formId/all', ...)]: the first row of the result, which
    is [undefined] when the form does not exist. *)
Definition get_formId_all (formId : string) (db : database)
  : response * database :=
  match select_form_all (JString formId) db with
  | Some rows => ({| status := 200; sent := Document (hd_error rows) |}, db)
  | None => ({| status := 500; sent := NoRows |}, db)
  end.

(** [router.post('/', ...)] *)
Definition post_root (name : jsval) (db : database) : response * database :=
  match insert_form name db with
  | Inserted db' => ({| status := 200; sent := NoRows |}, db')
  | Refused db' => ({| status := 500; sent := NoRows |}, db')
  end.

(** The question objects of a document, section by section. *)
Definition questions_of (doc : form_json) : list question_json :=
  match f_sections doc with
  | None => []
  | Some ss =>
      flat_map (fun s => match s_questions s with
                         | None => []
                         | Some qs => qs
                         end) ss
  end.

(** Modelled from the spec: no live route archives a question; archiving
    is [archived=true] on the row, the statement
    [update question set archived = true where id in (...)] that the
    disabled edit route of this file prepares. *)
Definition archive_question (id : Z) (db : database) : database :=
  with_question db
    (map (fun q =>
            if Question.id q =? id
            then {| Question.id := Question.id q;
                    Question.section_id := Question.section_id q;
                    Question.question := Question.question q;
                    Question.description := Question.description q;
                    Question.order := Question.order q;
                    Question.answer_type := Question.answer_type q;
                    Question.archived := true |}
            else q)
       (question db)).

End FormRouter.

(** ** Submissions *)

Module Submission.

(** Modelled from the spec: a submission of the data model (Submission:
    id, form_id, user_id); neither its table nor a statement on it is
    among the sources. *)
Record row : Type := { id : Z; form_id : Z; user_id : Z }.

(** Modelled from the spec: the submissions, with the next value of their
    serial id. *)
Record table : Type := { rows : list row; id_seq : Z }.

(** Modelled from the spec: the store action
    [createOrGetSubmissionByFormId] that the form page calls and the route
    behind it are not among the sources.  The operation looks up an
    existing submission for (form, user) and, if absent, creates one; its
    result is the id of that submission. *)
Definition create_or_get_submission (form user : Z) (t : table)
  : Z * table :=
  match find (fun r => (form_id r =? form) && (user_id r =? user)) (rows t)
  with
  | Some r => (id r, t)
  | None =>
      (id_seq t,
       {| rows := rows t ++ [ {| id := id_seq t; form_id := form;
                                 user_id := user |} ];
          id_seq := id_seq t + 1 |})
  end.

End Submission.

(** ** The pipeline slice of the client store ([src/src/zustand/store.js]) *)

Module Store.

(** A value of a response body or of the store. *)
Inductive json : Type :=
| JNull
| JBool (b : bool)
| JNum (z : Z)
| JStr (s : string)
| JArr (items : list json)
| JObj (members : list (string * json)).

(** [pipelines: [], selectedPipeline: {}] *)
Record state : Type := { pipelines : json; selectedPipeline : json }.

Definition initial : state :=
  {| pipelines := JArr []; selectedPipeline := JObj [] |}.

Inductive request : Type :=
| Get (url : string)
| Post (url : string) (data : json).

(** How a request ends: fulfilled with the [data] of the response, or
    rejected. *)
Inductive outcome : Type :=
| Fulfilled (data : json)
| Rejected.

(** What the server does with the n-th request the client sends. *)
Definition network : Type := nat -> request -> outcome.

(** The store together with the requests sent so far, oldest first. *)
Record world : Type := { store : state; requests : list request }.

(** [await axios.get(...)], [await axios.post(...)] *)
Definition axios (net : network) (r : request) (w : world)
  : outcome * world :=
  (net (List.length (requests w)) r,
   {| store := store w; requests := requests w ++ [r] |}).

(** [set({ pipelines: v })] *)
Definition set_pipelines (v : json) (w : world) : world :=
  {| store := {| pipelines := v;
                 selectedPipeline := selectedPipeline (store w) |};
     requests := requests w |}.

(** [set({ selectedPipeline: v })] *)
Definition set_selectedPipeline (v : json) (w : world) : world :=
  {| store := {| pipelines := pipelines (store w);
                 selectedPipeline := v |};
     requests := requests w |}.

Definition fetchPipeline (net : network) (w : world) : world :=
  let (res, w1) := axios net (Get "/api/pipeline") w in
  match res with
  | Fulfilled data => set_pipelines data w1
  | Rejected => set_pipelines (JArr []) w1
  end.

(** The refresh [get().fetchPipeline()] is started inside the [try]; the
    world returned is the one in which it has settled. *)
Definition addPipeline (net : network) (newPipeline : json) (w : world)
  : world :=
  let (res, w1) := axios net (Post "/api/pipeline" newPipeline) w in
  match res with
  | Fulfilled _ => fetchPipeline net w1
  | Rejected => w1
  end.

Definition fetchPipelineById (net : network) (pipelineId : string)
  (w : world) : world :=
  let (res, w1) :=
    axios net (Get (String.append "/api/pipeline/" pipelineId)) w in
  match res with
  | Fulfilled data => set_selectedPipeline data w1
  | Rejected => set_selectedPipeline (JObj []) w1
  end.

End Store.

(** ** Credentials ([src/server/modules/encryption.js]) *)

Module Encryption.

Section Bcrypt.

(** bcryptjs is a dependency of the project, not part of it.  Its
    Blowfish core is a parameter: from the 29 characters of a salt
    (version, cost and the 22 characters of the random bytes) and a
    password to the 31 characters that spell the hash in bcrypt's radix-64
    alphabet. *)
Variable crypt : string -> string -> string.

(** [bcrypt.genSaltSync(rounds)]; [noise] is the radix-64 spelling of the
    random bytes it draws. *)
Definition genSaltSync (rounds : Z) (noise : string) : string :=
  String.append "$2a$"
    (String.append (if rounds <? 10 then "0" else "")
       (String.append (Pg.show_int rounds) (String.append "$" noise))).

(** [bcrypt.hashSync(s, salt)]: the first 29 characters of the salt
    (bcryptjs reads version, cost and salt characters from them and writes
    them back in front of the hash), followed by the hash of [s] under
    them. *)
Definition hashSync (s salt : string) : string :=
  String.append (substring 0 29 salt) (crypt (substring 0 29 salt) s).

(** [bcrypt.compareSync(s, hash)]: a hash that is not 60 characters long
    matches nothing; otherwise [s] is hashed under the salt that [hash]
    starts with ([hash.substr(0, hash.length-31)]) and the two texts are
    compared.  This is the function on the texts that [hashSync] makes,
    the only ones compared against below: for a text of 60 characters
    whose beginning is no salt bcryptjs throws, where this definition
    answers [false]. *)
Definition compareSync (s hash : string) : bool :=
  if Nat.eqb (String.length hash) 60
  then String.eqb (hashSync s (substring 0 (String.length hash - 31) hash))
         hash
  else false.

Definition SALT_WORK_FACTOR : Z := 10.

Definition encryptPassword (noise : string) (password : string) : string :=
  let salt := genSaltSync SALT_WORK_FACTOR noise in
  hashSync password salt.

Definition comparePassword (candidatePassword storedPassword : string)
  : bool :=
  compareSync candidatePassword storedPassword.

End Bcrypt.

End Encryption.

(** ** The add-user dialog
       ([src/src/components/Pipeline/AddUserToPipeline.jsx]) *)

Module AddUserToPipeline.

Import Store.

(** How the evaluation of an expression ends: with a value, or with the
    TypeError that reading a property of [null] or [undefined], or calling
    what is no function, throws. *)
Inductive completion (A : Type) : Type :=
| Normal (a : A)
| TypeError.

Arguments Normal {A} a.
Arguments TypeError {A}.

Definition bind {A B : Type} (c : completion A) (k : A -> completion B)
  : completion B :=
  match c with
  | Normal a => k a
  | TypeError => TypeError
  end.

Notation "x <- c ;; k" := (bind c (fun x => k))
  (at level 61, c at next level, right associativity).

(** The member [k] of an object; of two members of one name the later
    one counts. *)
Fixpoint member (k : string) (members : list (string * json))
  : option json :=
  match members with
  | [] => None
  | (k', v) :: rest =>
      match member k rest with
      | Some v' => Some v'
      | None => if String.eqb k k' then Some v else None
      end
  end.

(** [v.k] for the names this component reads ([statuses], [applicants],
    [id]): a TypeError on [null], the member of an object, and
    [undefined] (here [None]) on an object without such a member, on an
    array and on a number, string or boolean. *)
Definition prop (k : string) (v : json) : completion (option json) :=
  match v with
  | JNull => TypeError
  | JObj members => Normal (member k members)
  | _ => Normal None
  end.

(** [v.k] where [v] itself may be [undefined]. *)
Definition prop_of (k : string) (v : option json)
  : completion (option json) :=
  match v with
  | None => TypeError
  | Some v' => prop k v'
  end.

(** Whether a value counts as true in a condition. *)
Definition truthy (v : option json) : bool :=
  match v with
  | None => false
  | Some JNull => false
  | Some (JBool b) => b
  | Some (JNum z) => negb (z =? 0)
  | Some (JStr s) => negb (String.eqb s EmptyString)
  | Some (JArr _) => true
  | Some (JObj _) => true
  end.

(** [a === b] for values read from two different responses: equal
    numbers, strings and booleans, [null] and [null], [undefined] and
    [undefined]; an object or array is never the same object as one of
    another response. *)
Definition strict_eq (a b : option json) : bool :=
  match a, b with
  | None, None => true
  | Some JNull, Some JNull => true
  | Some (JBool x), Some (JBool y) => Bool.eqb x y
  | Some (JNum x), Some (JNum y) => x =? y
  | Some (JStr x), Some (JStr y) => String.eqb x y
  | _, _ => false
  end.

(** [statuses.map((status) => status.applicants)] *)
Fixpoint map_applicants (statuses : list json)
  : completion (list (option json)) :=
  match statuses with
  | [] => Normal []
  | status :: rest =>
      a <- prop "applicants" status ;;
      l <- map_applicants rest ;;
      Normal (a :: l)
  end.

(** [.flat()]: an element that is an array gives way to its elements. *)
Definition flat (l : list (option json)) : list (option json) :=
  flat_map (fun e => match e with
                     | Some (JArr items) => map Some items
                     | _ => [e]
                     end) l.

(** [unfilteredUsers.some((u) => u.id === user.id)] *)
Fixpoint some_same_id (unfilteredUsers : list (option json)) (user : json)
  : completion bool :=
  match unfilteredUsers with
  | [] => Normal false
  | u :: rest =>
      a <- prop_of "id" u ;;
      b <- prop "id" user ;;
      if strict_eq a b then Normal true else some_same_id rest user
  end.

(** [foundUsers.filter((user) => !unfilteredUsers.some(...))] *)
Fixpoint filter_users (unfilteredUsers : list (option json))
  (foundUsers : list json) : completion (list json) :=
  match foundUsers with
  | [] => Normal []
  | user :: rest =>
      taken <- some_same_id unfilteredUsers user ;;
      l <- filter_users unfilteredUsers rest ;;
      Normal (if taken then l else user :: l)
  end.

(** The value of [usersAvailableToAdd] after the [if] of the component
    body, for [foundUsers] an array. *)
Definition usersAvailableToAdd (foundUsers : list json)
  (selectedPipelineWithData : json) : completion (list json) :=
  match foundUsers with
  | [] => Normal []
  | _ =>
      statuses <- prop "statuses" selectedPipelineWithData ;;
      match statuses with
      | Some (JArr items) =>
          applicants <- map_applicants items ;;
          let unfilteredUsers := filter truthy (flat applicants) in
          filter_users unfilteredUsers foundUsers
      | _ => TypeError
      end
  end.

(** What [addUserToPipeline] calls, in the order of the calls. *)
Inductive call : Type :=
| alert (message : string)
| addUserStatus (newUserStatus : list (string * option json))
| setSearchString (s : string)
| setSelectedUser (user : json)
| setShowModal (show : bool)
| searchingApplicant (s : string).

(** [Object.keys(v).length === 0] for a value that counts as true: an
    object without members, an empty array, and any number or boolean. *)
Definition no_keys (v : json) : bool :=
  match v with
  | JObj members => match members with [] => true | _ => false end
  | JArr items => match items with [] => true | _ => false end
  | JStr s => String.eqb s EmptyString
  | _ => true
  end.

(** [addUserToPipeline], with the props [pipelineId] and
    [initialPipelineStatusId] and the state [selectedUser] of the
    component. *)
Definition addUserToPipeline (selectedPipelineWithData : json)
  (selectedUser : json) (pipelineId initialPipelineStatusId : option json)
  : list call :=
  if negb (truthy (Some selectedPipelineWithData))
     || no_keys selectedPipelineWithData
  then [alert "Please select a pipeline"]
  else if negb (truthy (Some selectedUser))
  then [alert "Please select a user"]
  else
    [ addUserStatus
        [ ("pipeline_id", pipelineId);
          ("user_id", match selectedUser with
                      | JObj members => member "id" members
                      | _ => None
                      end);
          ("pipeline_status_id", initialPipelineStatusId) ];
      setSearchString EmptyString;
      setSelectedUser JNull;
      setShowModal false;
      searchingApplicant EmptyString ].

End AddUserToPipeline.

(** ** Example data *)

Module Sample.

Definition db : database :=
  {| pipeline := [ {| Pipeline.id := 1; Pipeline.name := "Volunteer" |} ];
     pipeline_id_seq := 2;
     pipeline_status :=
       [ {| PipelineStatus.id := 1; PipelineStatus.pipeline_id := 1;
            PipelineStatus.name := "Applied"; PipelineStatus.order := 1 |};
         {| PipelineStatus.id := 2; PipelineStatus.pipeline_id := 1;
            PipelineStatus.name := "Interview"; PipelineStatus.order := 2 |};
         {| PipelineStatus.id := 3; PipelineStatus.pipeline_id := 1;
            PipelineStatus.name := "Accepted"; PipelineStatus.order := 3 |} ];
     pipeline_status_id_seq := 4;
     user_status :=
       [ {| UserStatus.user_id := 7; UserStatus.pipeline_status_id := 2 |};
         {| UserStatus.user_id := 8; UserStatus.pipeline_status_id := 1 |} ];
     user :=
       [ {| User.id := 7; User.username := "john"; User.first_name := "John";
            User.last_name := "Doe"; User.email := "john@example.org" |};
         {| User.id := 8; User.username := "mary"; User.first_name := "Mary";
            User.last_name := "Roe"; User.email := "mary@example.org" |} ];
     forms := [ {| Forms.id := 1; Forms.name := "Volunteer application" |} ];
     forms_id_seq := 2;
     sections :=
       [ {| Sections.id := 1; Sections.form_id := 1;
            Sections.name := "About you"; Sections.description := "Basics";
            Sections.order := 1 |} ];
     question :=
       [ {| Question.id := 1; Question.section_id := 1;
            Question.question := "What is your name?";
            Question.description := "Full name"; Question.order := 1;
            Question.answer_type := "text"; Question.archived := false |};
         {| Question.id := 2; Question.section_id := 1;
            Question.question := "Have you volunteered before?";
            Question.description := "Yes or no"; Question.order := 2;
            Question.answer_type := "dropdown";
            Question.archived := false |} ];
     multiple_choice_answers :=
       [ {| MCAnswer.id := 1; MCAnswer.question_id := 2;
            MCAnswer.answer := "Yes" |};
         {| MCAnswer.id := 2; MCAnswer.question_id := 2;
            MCAnswer.answer := "No" |} ] |}.

(** The same tables with the status rows of pipeline 1 but no user in any
    of them. *)
Definition db_unassigned : database := with_user_status db [].

(** A stand-in for the bcrypt core that tells one password from all the
    others. *)
Definition toy_core (salt s : string) : string :=
  if String.eqb s "correct horse"
  then "0000000000000000000000000000000"
  else "1111111111111111111111111111111".

(** A store that holds one pipeline, with nothing sent yet. *)
Definition world : Store.world :=
  {| Store.store :=
       {| Store.pipelines :=
            Store.JArr [Store.JObj [("name", Store.JStr "Volunteer")]];
          Store.selectedPipeline := Store.JObj [] |};
     Store.requests := [] |}.

(** A server that refuses every request. *)
Definition offline : Store.network := fun _ _ => Store.Rejected.

(** A server that takes the first request, a POST, with the text
    "Created", and answers the request after it with two pipelines. *)
Definition online : Store.network := fun n _ =>
  match n with
  | O => Store.Fulfilled (Store.JStr "Created")
  | _ => Store.Fulfilled
           (Store.JArr [Store.JObj [("name", Store.JStr "Volunteer")];
                        Store.JObj [("name", Store.JStr "Donors")]])
  end.

End Sample.

(** ** Example data for the dialog *)

Module SampleDialog.

(** A board with two statuses, the first of which holds user 7 and an
    empty slot, and what a search found: users 7 and 9. *)
Definition board : Store.json :=
  Store.JObj
    [ ("statuses",
       Store.JArr
         [ Store.JObj
             [ ("name", Store.JStr "Applied");
               ("applicants",
                Store.JArr [ Store.JObj [("id", Store.JNum 7)];
                             Store.JNull ]) ];
           Store.JObj [ ("name", Store.JStr "Interview") ] ]) ].

Definition found : list Store.json :=
  [ Store.JObj [("id", Store.JNum 7); ("first_name", Store.JStr "John")];
    Store.JObj [("id", Store.JNum 9); ("first_name", Store.JStr "Nina")] ].

End SampleDialog.

(** ** Vocabulary of the properties *)

(** A user_status row before and after user [u] is moved to status [n]:
    the row stays with its user; a row of [u] ends in [n] whatever status
    it was in, and a row of another user is as it was. *)
Definition moved (u n : Z) (old new : UserStatus.row) : Prop :=
  UserStatus.user_id new = UserStatus.user_id old /\
  (UserStatus.user_id old = u -> UserStatus.pipeline_status_id new = n) /\
  (UserStatus.user_id old <> u -> new = old).

(** Rows in ascending [order]. *)
Definition by_order (a b : PipelineRouter.kanban_row) : Prop :=
  PipelineRouter.order a <= PipelineRouter.order b.

(** The 64 characters of bcrypt's radix-64 alphabet. *)
Definition radix64 : list ascii :=
  list_ascii_of_string
    "./ABCDEFGHIJKLMNOPQRSTUVWXYZabcdefghijklmnopqrstuvwxyz0123456789".

(** The 95 printable ASCII characters, from the blank to the tilde. *)
Definition printable : list ascii := map ascii_of_nat (seq 32 95).

(** [s] is spelt with characters of [alphabet]. *)
Definition spelt (alphabet : list ascii) (s : string) : Prop :=
  Forall (fun c => In c alphabet) (list_ascii_of_string s).

(** The texts a bcrypt core returns: 31 characters of [radix64]. *)
Definition bcrypt_core (crypt : string -> string -> string) : Prop :=
  forall salt s,
    String.length (crypt salt s) = 31%nat /\ spelt radix64 (crypt salt s).

(** The strings of [n] characters of [alphabet]. *)
Fixpoint words (n : nat) (alphabet : list ascii) : list string :=
  match n with
  | O => [EmptyString]
  | S n' => flat_map (fun c => map (String c) (words n' alphabet)) alphabet
  end.

(** The round trip as the specification words it: a printable password
    of reasonable length (at most 72 characters, the most that bcrypt
    reads) verifies against its own hash, and no other password does,
    whatever the random bytes of the salt are. *)
Definition hash_verify_round_trip (crypt : string -> string -> string)
  : Prop :=
  forall noise p p2,
    String.length noise = 22%nat ->
    spelt printable p -> (String.length p <= 72)%nat ->
    Encryption.comparePassword crypt p
      (Encryption.encryptPassword crypt noise p) = true /\
    (p2 <> p ->
     Encryption.comparePassword crypt p2
       (Encryption.encryptPassword crypt noise p) = false).


(** ** Vocabulary of the further properties *)

(** No character of [s] is a decimal digit, so [s] is the notation of no
    integer. *)
Definition digitless (s : string) : Prop :=
  Forall (fun c => ~ In c Pg.decimal_digits) (list_ascii_of_string s).

(** The routes of the pipeline router without ['pipeline_status/:id'] and
    ['/user_status/remove'], in the same order. *)
Definition routes_reached : list PipelineRouter.route :=
  [ {| PipelineRouter.verb := PipelineRouter.GET;
       PipelineRouter.path := "/";
       PipelineRouter.run := PipelineRouter.get_root |};
    {| PipelineRouter.verb := PipelineRouter.GET;
       PipelineRouter.path := "/:pipelineId";
       PipelineRouter.run := PipelineRouter.get_pipelineId |};
    {| PipelineRouter.verb := PipelineRouter.POST;
       PipelineRouter.path := "/";
       PipelineRouter.run :=
         PipelineRouter.rejectUnauthenticated PipelineRouter.post_root |};
    {| PipelineRouter.verb := PipelineRouter.DELETE;
       PipelineRouter.path := "/:id";
       PipelineRouter.run :=
         PipelineRouter.rejectUnauthenticated PipelineRouter.delete_id |};
    {| PipelineRouter.verb := PipelineRouter.PUT;
       PipelineRouter.path := "/:id";
       PipelineRouter.run :=
         PipelineRouter.rejectUnauthenticated PipelineRouter.put_id |};
    {| PipelineRouter.verb := PipelineRouter.POST;
       PipelineRouter.path := "/status";
       PipelineRouter.run :=
         PipelineRouter.rejectUnauthenticated PipelineRouter.post_status |};
    {| PipelineRouter.verb := PipelineRouter.DELETE;
       PipelineRouter.path := "/pipeline_status/:id";
       PipelineRouter.run :=
         PipelineRouter.rejectUnauthenticated
           PipelineRouter.delete_pipeline_status_id |};
    {| PipelineRouter.verb := PipelineRouter.POST;
       PipelineRouter.path := "/user_status";
       PipelineRouter.run :=
         PipelineRouter.rejectUnauthenticated
           PipelineRouter.post_user_status |};
    {| PipelineRouter.verb := PipelineRouter.PUT;
       PipelineRouter.path := "/user_status/:userId";
       PipelineRouter.run :=
         PipelineRouter.rejectUnauthenticated
           PipelineRouter.put_user_status_userId |} ].


(** A user_status row after the rows of user [u] are given status [n]. *)
Definition to_status (u n : Z) (us : UserStatus.row) : UserStatus.row :=
  if Pg.int_eq (UserStatus.user_id us) (Some u)
  then {| UserStatus.user_id := UserStatus.user_id us;
          UserStatus.pipeline_status_id := n |}
  else us.

(** [v.id] for a value [v] other than [null]. *)
Definition id_of (v : Store.json) : option Store.json :=
  match v with
  | Store.JObj members => AddUserToPipeline.member "id" members
  | _ => None
  end.

(** [a] is an applicant of one of [statuses]: a value that counts as true
    and is an element of the [applicants] array of a status, or is the
    [applicants] of a status itself when that is no array. *)
Definition applicant (statuses : list Store.json) (a : Store.json) : Prop :=
  AddUserToPipeline.truthy (Some a) = true /\
  exists status v,
    In status statuses /\
    AddUserToPipeline.prop "applicants" status
    = AddUserToPipeline.Normal (Some v) /\
    match v with
    | Store.JArr items => In a items
    | _ => a = v
    end.

(* ================================================================== *)
(** * Part II. Properties *)
(* ================================================================== *)

(** ** Parameters in decimal notation *)

Lemma to_int_not_nil (z : Z) :
  Z.to_int z <> Decimal.Pos Decimal.Nil /\
  Z.to_int z <> Decimal.Neg Decimal.Nil.
Proof.
  assert (Hn : forall p, Pos.to_uint p <> Decimal.Nil).
  { intros p H.
    assert (E : Pos.of_uint (Pos.to_uint p) = N.pos p)
      by apply DecimalPos.Unsigned.of_to.
    rewrite H in E. discriminate E. }
  destruct z as [ | p | p ]; simpl; split; try discriminate;
    intros H; injection H as H; exact (Hn _ H).
Qed.

Lemma digit_not_blank (c : ascii) :
  In c Pg.decimal_digits -> Pg.is_blank c = false.
Proof.
  intros H. repeat (destruct H as [<- | H]; [reflexivity | ]).
  destruct H.
Qed.

Lemma string_of_uint_digits (d : Decimal.uint) :
  Forall (fun c => In c Pg.decimal_digits)
    (list_ascii_of_string (NilEmpty.string_of_uint d)).
Proof.
  induction d; simpl; constructor; try assumption;
    unfold Pg.decimal_digits; simpl; tauto.
Qed.

Lemma drop_trailing_blanks_digits (s : string) :
  Forall (fun c => In c Pg.decimal_digits) (list_ascii_of_string s) ->
  Pg.drop_trailing_blanks s = s.
Proof.
  induction s as [ | c s IH]; intros H; [reflexivity | ].
  inversion H as [ | c' l' Hc Hs]; subst.
  cbn [Pg.drop_trailing_blanks Pg.all_blank].
  rewrite (digit_not_blank c Hc). cbn [andb].
  now rewrite IH.
Qed.

Lemma unsigned_show (d : Decimal.uint) :
  d <> Decimal.Nil ->
  Pg.unsigned (NilZero.string_of_uint d) = Some d.
Proof.
  intros Hd. unfold Pg.unsigned.
  rewrite drop_trailing_blanks_digits.
  - now apply NilZero.usu.
  - destruct d; try apply string_of_uint_digits. now destruct Hd.
Qed.

Lemma parse_unsigned (d : Decimal.uint) :
  d <> Decimal.Nil ->
  Pg.parse_int (NilZero.string_of_uint d) = Some (Z.of_int (Decimal.Pos d)).
Proof.
  intros Hd. generalize (unsigned_show d Hd).
  destruct d; try (now destruct Hd); simpl NilZero.string_of_uint;
    remember (NilEmpty.string_of_uint d) as r; intros H;
    cbv [Pg.parse_int Pg.skip_blanks Pg.is_blank existsb Ascii.eqb
         Bool.eqb orb andb];
    now rewrite H.
Qed.

Lemma parse_show (z : Z) : Pg.parse_int (Pg.show_int z) = Some z.
Proof.
  unfold Pg.show_int.
  destruct (to_int_not_nil z) as [Hp Hn].
  rewrite <- (DecimalZ.of_to z) at 2.
  destruct (Z.to_int z) as [d | d]; simpl NilZero.string_of_int.
  - apply parse_unsigned. intros ->. now apply Hp.
  - assert (H : Pg.unsigned (NilZero.string_of_uint d) = Some d)
      by (apply unsigned_show; intros ->; now apply Hn).
    remember (NilZero.string_of_uint d) as r.
    cbv [Pg.parse_int Pg.skip_blanks Pg.is_blank existsb Ascii.eqb
         Bool.eqb orb andb].
    now rewrite H.
Qed.

Lemma as_int_show (z : Z) :
  Pg.as_int (Pg.JString (Pg.show_int z)) = Some (Some z).
Proof. unfold Pg.as_int. simpl. now rewrite parse_show. Qed.

Lemma as_int_number (z : Z) : Pg.as_int (Pg.JNumber z) = Some (Some z).
Proof. unfold Pg.as_int. simpl. now rewrite parse_show. Qed.

(** ** Filters and maps that leave a table as it is *)


Lemma filter_none {A : Type} (f : A -> bool) (l : list A) :
  (forall x, In x l -> f x = false) -> filter f l = [].
Proof.
  induction l as [ | x l IH ]; intros H; simpl.
  - reflexivity.
  - rewrite (H x (or_introl eq_refl)).
    apply IH. intros y Hy. apply H. now right.
Qed.


(** ** Route parameters *)

Section RouteParameters.

Import PipelineRouter.






End RouteParameters.

(** ** Pipelines *)

Section MissingPipeline.

Import PipelineRouter.

Variable db : database.
Variable id : Z.
Hypothesis no_such_row : forall p, In p (pipeline db) -> Pipeline.id p <> id.




End MissingPipeline.



(** ** Moving a user *)

Section MoveUser.

Import PipelineRouter.

Variables u n : Z.

Lemma moved_map (l : list UserStatus.row) :
  Forall2 (moved u n) l
    (map (fun us =>
            if Pg.int_eq (UserStatus.user_id us) (Some u)
            then {| UserStatus.user_id := UserStatus.user_id us;
                    UserStatus.pipeline_status_id := n |}
            else us) l).
Proof.
  induction l as [ | us l IH ]; simpl; constructor; try exact IH.
  unfold moved. destruct (Z.eqb_spec (UserStatus.user_id us) u) as [E | E];
    simpl; repeat split; auto; intros; contradiction.
Qed.

Lemma moved_nobody (l : list UserStatus.row) :
  existsb (fun us => Pg.int_eq (UserStatus.user_id us) (Some u)) l = false ->
  Forall2 (moved u n) l l.
Proof.
  induction l as [ | us l IH ]; simpl; intros H; constructor.
  - apply orb_false_iff in H as [H _]. apply Z.eqb_neq in H.
    unfold moved. repeat split; auto. intros; contradiction.
  - apply IH. now apply orb_false_iff in H as [_ H].
Qed.

End MoveUser.

(** C3. [PUT /user_status/:userId] for a user id [u] within the range of
    the column, with the id [n] of a status as [pipeline_status_id],
    answers 200 and rewrites user_status row by row:
    every row of user [u] ends in status [n], whatever status it was in
    (nothing is consulted about the step from the old status to the new
    one), and every row of another user is as it was.  No other table
    changes. *)
Theorem move_user_is_unconditional
  (db : database) (u n : Z) (auth : bool) :
  Pg.int4 u ->
  (exists s, In s (pipeline_status db) /\ PipelineStatus.id s = n) ->
  let req := {| PipelineRouter.authenticated := auth;
                PipelineRouter.params := [("userId", Pg.show_int u)];
                PipelineRouter.body :=
                  [("pipeline_status_id", Pg.JNumber n)] |} in
  exists db',
    PipelineRouter.put_user_status_userId req db
    = (PipelineRouter.sendStatus 200, db') /\
    Forall2 (moved u n) (user_status db) (user_status db') /\
    pipeline db' = pipeline db /\
    pipeline_status db' = pipeline_status db /\
    user db' = user db.
Proof.
  intros _ [s [Hs Hid]] req.
  unfold PipelineRouter.put_user_status_userId, PipelineRouter.param,
    PipelineRouter.field. simpl.
  unfold PipelineRouter.update_user_status.
  rewrite as_int_number, as_int_show.
  destruct (existsb _ (user_status db)) eqn:Hrows.
  - assert (Hfk : existsb (fun s0 => PipelineStatus.id s0 =? n)
                    (pipeline_status db) = true).
    { apply existsb_exists. exists s. split; [exact Hs | ].
      now apply Z.eqb_eq. }
    rewrite Hfk. simpl. eexists. split; [reflexivity | ].
    simpl. repeat split; auto. apply moved_map.
  - simpl. exists db. repeat split; auto. now apply moved_nobody.
Qed.

Lemma move_user_is_unconditional_witness :
  Pg.int4 7 /\
  (exists s, In s (pipeline_status Sample.db) /\ PipelineStatus.id s = 3) /\
  exists db',
    PipelineRouter.put_user_status_userId
      {| PipelineRouter.authenticated := true;
         PipelineRouter.params := [("userId", Pg.show_int 7)];
         PipelineRouter.body := [("pipeline_status_id", Pg.JNumber 3)] |}
      Sample.db
    = (PipelineRouter.sendStatus 200, db') /\
    Forall2 (moved 7 3) (user_status Sample.db) (user_status db') /\
    pipeline db' = pipeline Sample.db /\
    pipeline_status db' = pipeline_status Sample.db /\
    user db' = user Sample.db.
Proof.
  assert (H : exists s, In s (pipeline_status Sample.db)
                        /\ PipelineStatus.id s = 3).
  { eexists. split; [ simpl; right; right; left; reflexivity | reflexivity ]. }
  assert (R : Pg.int4 7) by (unfold Pg.int4; lia).
  split; [exact R | ]. split; [exact H | ].
  exact (move_user_is_unconditional Sample.db 7 3 true R H).
Defined.

(** Moving john from status 2 to status 3 in the example tables. *)
Example sample_move :
  user_status
    (snd (PipelineRouter.put_user_status_userId
            {| PipelineRouter.authenticated := true;
               PipelineRouter.params := [("userId", "7")];
               PipelineRouter.body :=
                 [("pipeline_status_id", Pg.JNumber 3)] |} Sample.db))
  = [ {| UserStatus.user_id := 7; UserStatus.pipeline_status_id := 3 |};
      {| UserStatus.user_id := 8; UserStatus.pipeline_status_id := 1 |} ].
Proof. reflexivity. Qed.

(** ** The Kanban query *)

Section Kanban.

Import PipelineRouter.

Lemma insert_by_order_perm (r : kanban_row) (l : list kanban_row) :
  Permutation (insert_by_order r l) (r :: l).
Proof.
  induction l as [ | x l IH ]; simpl.
  - apply Permutation_refl.
  - destruct (order r <=? order x).
    + apply Permutation_refl.
    + apply perm_trans with (x :: r :: l).
      * now apply perm_skip.
      * apply perm_swap.
Qed.

Lemma order_by_perm (l : list kanban_row) : Permutation (order_by l) l.
Proof.
  induction l as [ | r l IH ]; simpl.
  - apply perm_nil.
  - apply perm_trans with (r :: order_by l).
    + apply insert_by_order_perm.
    + now apply perm_skip.
Qed.

Lemma insert_by_order_hd (r x : kanban_row) (l : list kanban_row) :
  by_order x r -> HdRel by_order x l ->
  HdRel by_order x (insert_by_order r l).
Proof.
  intros Hxr Hl. destruct l as [ | y l ]; simpl.
  - now constructor.
  - destruct (order r <=? order y); constructor; trivial.
    now inversion Hl.
Qed.

Lemma insert_by_order_sorted (r : kanban_row) (l : list kanban_row) :
  Sorted by_order l -> Sorted by_order (insert_by_order r l).
Proof.
  induction 1 as [ | x l Hs IH Hhd ]; simpl.
  - repeat constructor.
  - destruct (Z.leb_spec (order r) (order x)) as [Hle | Hgt].
    + constructor.
      * now constructor.
      * constructor. exact Hle.
    + constructor; [exact IH | ].
      apply insert_by_order_hd; [ | exact Hhd].
      unfold by_order. lia.
Qed.

Lemma order_by_sorted (l : list kanban_row) :
  StronglySorted by_order (order_by l).
Proof.
  apply Sorted_StronglySorted.
  - intros a b c. unfold by_order. lia.
  - induction l as [ | r l IH ]; simpl.
    + constructor.
    + now apply insert_by_order_sorted.
Qed.

(** The join holds exactly the combinations of rows that its ON
    conditions link. *)
Lemma kanban_join_spec (db : database)
  (us : UserStatus.row) (ps : PipelineStatus.row) (p : Pipeline.row)
  (u : User.row) :
  In (us, ps, p, u) (kanban_join db) <->
  In us (user_status db) /\ In ps (pipeline_status db) /\
  In p (pipeline db) /\ In u (user db) /\
  UserStatus.pipeline_status_id us = PipelineStatus.id ps /\
  PipelineStatus.pipeline_id ps = Pipeline.id p /\
  UserStatus.user_id us = User.id u.
Proof.
  unfold kanban_join. split.
  - intros H.
    apply in_flat_map in H as [us' [Hus H]].
    apply in_flat_map in H as [ps' [Hps H]].
    destruct (Z.eqb_spec (UserStatus.pipeline_status_id us')
                (PipelineStatus.id ps')) as [E1 | ]; [ | contradiction ].
    apply in_flat_map in H as [p' [Hp H]].
    destruct (Z.eqb_spec (PipelineStatus.pipeline_id ps') (Pipeline.id p'))
      as [E2 | ]; [ | contradiction ].
    apply in_flat_map in H as [u' [Hu H]].
    destruct (Z.eqb_spec (UserStatus.user_id us') (User.id u'))
      as [E3 | ]; [ | contradiction ].
    destruct H as [H | []]. injection H as -> -> -> ->. tauto.
  - intros (Hus & Hps & Hp & Hu & E1 & E2 & E3).
    apply in_flat_map. exists us. split; [exact Hus | ].
    apply in_flat_map. exists ps. split; [exact Hps | ].
    rewrite (proj2 (Z.eqb_eq _ _) E1).
    apply in_flat_map. exists p. split; [exact Hp | ].
    rewrite (proj2 (Z.eqb_eq _ _) E2).
    apply in_flat_map. exists u. split; [exact Hu | ].
    rewrite (proj2 (Z.eqb_eq _ _) E3). now left.
Qed.

(** The rows of the Kanban query for pipeline [id], before ORDER BY. *)
Lemma select_kanban_show (db : database) (id : Z) :
  select_kanban (Pg.JString (Pg.show_int id)) db
  = Some (order_by
            (map kanban_select
               (filter (fun t => let '(_, _, p, _) := t in
                                 Pipeline.id p =? id)
                  (kanban_join db)))).
Proof.
  unfold select_kanban. now rewrite as_int_show.
Qed.

Lemma kanban_rows_spec (db : database) (id : Z) (r : kanban_row) :
  In r (map kanban_select
          (filter (fun t => let '(_, _, p, _) := t in Pipeline.id p =? id)
             (kanban_join db))) <->
  exists us ps p u,
    In us (user_status db) /\ In ps (pipeline_status db) /\
    In p (pipeline db) /\ In u (user db) /\
    UserStatus.pipeline_status_id us = PipelineStatus.id ps /\
    PipelineStatus.pipeline_id ps = Pipeline.id p /\
    UserStatus.user_id us = User.id u /\
    Pipeline.id p = id /\
    r = {| pipeline_name := Pipeline.name p;
           pipeline_status_id := PipelineStatus.id ps;
           pipeline_status_name := PipelineStatus.name ps;
           order := PipelineStatus.order ps;
           user_id := User.id u;
           username := User.username u |}.
Proof.
  rewrite in_map_iff. split.
  - intros [[[[us ps] p] u] [Hr Hin]].
    apply filter_In in Hin as [Hin Hid].
    apply kanban_join_spec in Hin. apply Z.eqb_eq in Hid.
    exists us, ps, p, u. simpl in Hr. subst r. tauto.
  - intros (us & ps & p & u & Hus & Hps & Hp & Hu & E1 & E2 & E3 & Hid & Hr).
    exists (us, ps, p, u). split; [now subst r | ].
    apply filter_In. split.
    + apply kanban_join_spec. tauto.
    + now apply Z.eqb_eq.
Qed.

Lemma kanban_response (db : database) (id : Z) (auth : bool)
  (json_body : list (string * Pg.jsval)) :
  get_pipelineId {| authenticated := auth;
                    params := [("pipelineId", Pg.show_int id)];
                    body := json_body |} db
  = (json (Kanban
             (order_by
                (map kanban_select
                   (filter (fun t => let '(_, _, p, _) := t in
                                     Pipeline.id p =? id)
                      (kanban_join db))))), db).
Proof.
  unfold get_pipelineId, param. simpl. now rewrite select_kanban_show.
Qed.

Lemma order_by_In (r : kanban_row) (l : list kanban_row) :
  In r (order_by l) <-> In r l.
Proof.
  split; intros H.
  - eapply Permutation_in; [apply order_by_perm | exact H].
  - eapply Permutation_in; [apply Permutation_sym, order_by_perm | exact H].
Qed.

End Kanban.

(** C4. For a pipeline id within the range of the column,
    [GET /:pipelineId] answers 200 with a flat list of rows, ascending in [order], that is a rearrangement of the
    SELECT list taken over the rows of the user_status, pipeline_status,
    pipeline and user join that belong to the pipeline: one row per user
    assignment, each with the columns of its status, pipeline and user,
    and nothing grouped by status.  The tables are left as they are. *)
Theorem pipeline_detail_sorted_flat
  (db : database) (id : Z) (auth : bool)
  (json_body : list (string * Pg.jsval)) :
  Pg.int4 id ->
  let req := {| PipelineRouter.authenticated := auth;
                PipelineRouter.params := [("pipelineId", Pg.show_int id)];
                PipelineRouter.body := json_body |} in
  exists rows,
    PipelineRouter.get_pipelineId req db
    = (PipelineRouter.json (PipelineRouter.Kanban rows), db) /\
    StronglySorted by_order rows /\
    Permutation rows
      (map PipelineRouter.kanban_select
         (filter (fun t => let '(_, _, p, _) := t in Pipeline.id p =? id)
            (PipelineRouter.kanban_join db))) /\
    forall r,
      In r rows <->
      exists us ps p u,
        In us (user_status db) /\ In ps (pipeline_status db) /\
        In p (pipeline db) /\ In u (user db) /\
        UserStatus.pipeline_status_id us = PipelineStatus.id ps /\
        PipelineStatus.pipeline_id ps = Pipeline.id p /\
        UserStatus.user_id us = User.id u /\
        Pipeline.id p = id /\
        r = {| PipelineRouter.pipeline_name := Pipeline.name p;
               PipelineRouter.pipeline_status_id := PipelineStatus.id ps;
               PipelineRouter.pipeline_status_name := PipelineStatus.name ps;
               PipelineRouter.order := PipelineStatus.order ps;
               PipelineRouter.user_id := User.id u;
               PipelineRouter.username := User.username u |}.
Proof.
  intros _ req. unfold req. rewrite kanban_response.
  eexists. split; [reflexivity | ].
  split; [apply order_by_sorted | ].
  split; [apply order_by_perm | ].
  intros r. now rewrite order_by_In, kanban_rows_spec.
Qed.

Lemma pipeline_detail_sorted_flat_witness :
  Pg.int4 1 /\
  exists rows,
    PipelineRouter.get_pipelineId
      {| PipelineRouter.authenticated := false;
         PipelineRouter.params := [("pipelineId", Pg.show_int 1)];
         PipelineRouter.body := [] |} Sample.db
    = (PipelineRouter.json (PipelineRouter.Kanban rows), Sample.db) /\
    StronglySorted by_order rows /\
    Permutation rows
      (map PipelineRouter.kanban_select
         (filter (fun t => let '(_, _, p, _) := t in Pipeline.id p =? 1)
            (PipelineRouter.kanban_join Sample.db))).
Proof.
  assert (R : Pg.int4 1) by (unfold Pg.int4; lia).
  split; [exact R | ].
  destruct (pipeline_detail_sorted_flat Sample.db 1 false [] R)
    as [rows [Hrun [Hsorted [Hperm _]]]].
  exists rows. repeat split; assumption.
Defined.

(** The board of the example pipeline: the join meets john (status 2)
    before mary (status 1), the answer lists mary first; status 3, which
    holds nobody, has no row. *)
Example sample_board :
  PipelineRouter.get_pipelineId
    {| PipelineRouter.authenticated := false;
       PipelineRouter.params := [("pipelineId", "1")];
       PipelineRouter.body := [] |} Sample.db
  = (PipelineRouter.json
       (PipelineRouter.Kanban
          [ {| PipelineRouter.pipeline_name := "Volunteer";
               PipelineRouter.pipeline_status_id := 1;
               PipelineRouter.pipeline_status_name := "Applied";
               PipelineRouter.order := 1;
               PipelineRouter.user_id := 8;
               PipelineRouter.username := "mary" |};
            {| PipelineRouter.pipeline_name := "Volunteer";
               PipelineRouter.pipeline_status_id := 2;
               PipelineRouter.pipeline_status_name := "Interview";
               PipelineRouter.order := 2;
               PipelineRouter.user_id := 7;
               PipelineRouter.username := "john" |} ]),
     Sample.db).
Proof. reflexivity. Qed.

(** C10. The rows of [GET /:pipelineId], for a pipeline id within the
    range of the column, come from user_status: a status that no
    user_status row points to occurs in no row of the answer, and when no
    user_status row points to a status of the pipeline the answer is the
    empty list. *)
Theorem unassigned_status_is_invisible
  (db : database) (id : Z) (auth : bool)
  (json_body : list (string * Pg.jsval)) :
  Pg.int4 id ->
  let req := {| PipelineRouter.authenticated := auth;
                PipelineRouter.params := [("pipelineId", Pg.show_int id)];
                PipelineRouter.body := json_body |} in
  exists rows,
    PipelineRouter.get_pipelineId req db
    = (PipelineRouter.json (PipelineRouter.Kanban rows), db) /\
    (forall sid,
        (forall us, In us (user_status db) ->
                    UserStatus.pipeline_status_id us <> sid) ->
        forall r, In r rows -> PipelineRouter.pipeline_status_id r <> sid) /\
    ((forall us ps,
         In us (user_status db) -> In ps (pipeline_status db) ->
         PipelineStatus.pipeline_id ps = id ->
         UserStatus.pipeline_status_id us <> PipelineStatus.id ps) ->
     rows = []).
Proof.
  intros _ req. unfold req. rewrite kanban_response.
  eexists. split; [reflexivity | ]. split.
  - intros sid Hnone r Hr.
    apply order_by_In, kanban_rows_spec in Hr
      as (us & ps & p & u & Hus & _ & _ & _ & E1 & _ & _ & _ & ->).
    simpl. rewrite <- E1. now apply Hnone.
  - intros Hnone.
    destruct (PipelineRouter.order_by _) as [ | r rows ] eqn:Hrows;
      [reflexivity | ].
    assert (Hr : In r (r :: rows)) by now left.
    rewrite <- Hrows in Hr.
    apply order_by_In, kanban_rows_spec in Hr
      as (us & ps & p & u & Hus & Hps & _ & _ & E1 & E2 & _ & Hid & _).
    exfalso. apply (Hnone us ps Hus Hps); congruence.
Qed.

Lemma unassigned_status_is_invisible_witness :
  Pg.int4 1 /\
  PipelineRouter.get_pipelineId
    {| PipelineRouter.authenticated := false;
       PipelineRouter.params := [("pipelineId", Pg.show_int 1)];
       PipelineRouter.body := [] |} Sample.db_unassigned
  = (PipelineRouter.json (PipelineRouter.Kanban []), Sample.db_unassigned).
Proof.
  assert (R : Pg.int4 1) by (unfold Pg.int4; lia).
  split; [exact R | ].
  destruct (unassigned_status_is_invisible Sample.db_unassigned 1 false [] R)
    as [rows [Hrun [_ Hempty]]].
  rewrite Hrun, Hempty; [reflexivity | ].
  intros us ps [].
Defined.

(** ** Updating a status, removing a user from a pipeline *)

(** C1 (the code departs from it).  The handler of
    ['pipeline_status/:id'] hands its values over as id, order, name while
    its statement reads [$1] as the new order, [$2] as the new name and
    [$3] as the id of the row.  Asked to give status 2 the order 5 and the
    name "Offer", it answers 500 and changes nothing, because "Offer" is
    no id; asked to give status 2 the order 1 and the name "3", it answers
    200 and gives status 3 the order 2 and the name "1", while status 2 is
    as it was.  The route path lacks its leading slash, so the router
    takes no [PUT /pipeline_status/2] at all. *)
Theorem update_status_binds_values_out_of_order :
  PipelineRouter.put_pipeline_status_id
    {| PipelineRouter.authenticated := true;
       PipelineRouter.params := [("id", "2")];
       PipelineRouter.body :=
         [("order", Pg.JNumber 5); ("name", Pg.JString "Offer")] |}
    Sample.db
  = (PipelineRouter.sendStatus 500, Sample.db) /\
  (exists db',
      PipelineRouter.put_pipeline_status_id
        {| PipelineRouter.authenticated := true;
           PipelineRouter.params := [("id", "2")];
           PipelineRouter.body :=
             [("order", Pg.JNumber 1); ("name", Pg.JString "3")] |}
        Sample.db
      = (PipelineRouter.sendStatus 200, db') /\
      pipeline_status db' =
        [ {| PipelineStatus.id := 1; PipelineStatus.pipeline_id := 1;
             PipelineStatus.name := "Applied"; PipelineStatus.order := 1 |};
          {| PipelineStatus.id := 2; PipelineStatus.pipeline_id := 1;
             PipelineStatus.name := "Interview";
             PipelineStatus.order := 2 |};
          {| PipelineStatus.id := 3; PipelineStatus.pipeline_id := 1;
             PipelineStatus.name := "1"; PipelineStatus.order := 2 |} ]) /\
  PipelineRouter.dispatch PipelineRouter.router PipelineRouter.PUT
    "/pipeline_status/2" true
    [("order", Pg.JNumber 5); ("name", Pg.JString "Offer")] Sample.db
  = None.
Proof.
  split; [reflexivity | ]. split; [ | reflexivity ].
  eexists. split; reflexivity.
Qed.

(** C2 (the code departs from it).  [PUT /user_status/remove] never
    reaches its handler: ['/user_status/:userId'] is registered before it
    and takes the request with "remove" as the user id, which is no
    integer, so the answer is 500 and the user_status row stays.  Called on
    its own, the handler of ['/user_status/remove'] answers 500 as well,
    since its statement names a column [pipeline_id] that user_status does
    not have. *)
Theorem remove_user_status_always_fails :
  PipelineRouter.dispatch PipelineRouter.router PipelineRouter.PUT
    "/user_status/remove" true
    [("user_id", Pg.JNumber 7); ("pipeline_id", Pg.JNumber 1)] Sample.db
  = Some (PipelineRouter.sendStatus 500, Sample.db) /\
  PipelineRouter.match_path "/user_status/:userId" "/user_status/remove"
  = Some [("userId", "remove")] /\
  forall req db,
    PipelineRouter.put_user_status_remove req db
    = (PipelineRouter.sendStatus 500, db).
Proof.
  repeat split; reflexivity.
Qed.

(** ** Forms *)

Section FormDocument.

Import FormRouter.

Lemma json_agg_items {A : Type} (l : list A) :
  match json_agg l with Some l' => l' | None => [] end = l.
Proof. now destruct l. Qed.

(** Archiving rewrites the [archived] column and nothing else. *)
Lemma archive_question_rows (qid : Z) (db : database) (q' : Question.row) :
  In q' (question (archive_question qid db)) <->
  exists q,
    In q (question db) /\
    Question.id q' = Question.id q /\
    Question.section_id q' = Question.section_id q /\
    Question.question q' = Question.question q /\
    Question.description q' = Question.description q /\
    Question.order q' = Question.order q /\
    Question.answer_type q' = Question.answer_type q /\
    Question.archived q'
    = (if Question.id q =? qid then true else Question.archived q).
Proof.
  unfold archive_question. simpl. rewrite in_map_iff. split.
  - intros [q [<- Hq]]. exists q. split; [exact Hq | ].
    destruct (Question.id q =? qid); simpl; tauto.
  - intros (q & Hq & E1 & E2 & E3 & E4 & E5 & E6 & E7).
    exists q. split; [ | exact Hq ].
    destruct q', q. simpl in *. subst.
    now destruct (_ =? qid).
Qed.

(** The question objects of a document, as a list. *)
Lemma flat_map_map {A B C : Type} (f : A -> B) (g : B -> list C)
  (l : list A) :
  flat_map g (map f l) = flat_map (fun x => g (f x)) l.
Proof.
  induction l as [ | x l IH ]; simpl; [reflexivity | now rewrite IH].
Qed.

Lemma questions_of_form_object (db : database) (f : Forms.row) :
  questions_of (form_object db f)
  = flat_map
      (fun s =>
         map (question_object db)
           (filter (fun q => (Question.section_id q =? Sections.id s)
                             && Bool.eqb (Question.archived q) false)
              (question db)))
      (filter (fun s => Sections.form_id s =? Forms.id f) (sections db)).
Proof.
  unfold questions_of, form_object. simpl.
  set (ss := map (section_object db) _).
  replace (match json_agg ss with
           | Some ss0 => flat_map _ ss0
           | None => []
           end)
    with (flat_map (fun s => match s_questions s with
                             | Some qs => qs
                             | None => []
                             end) ss)
    by now destruct ss.
  subst ss. rewrite flat_map_map. apply flat_map_ext. intros s.
  simpl. now rewrite json_agg_items.
Qed.

(** The document of a form that exists, with its questions as a list. *)
Lemma form_document_questions (db : database) (fid : Z) :
  (exists f, In f (forms db) /\ Forms.id f = fid) ->
  exists doc,
    get_formId_all (Pg.show_int fid) db
    = ({| status := 200; sent := Document (Some doc) |}, db) /\
    f_id doc = fid /\
    questions_of doc
    = flat_map
        (fun s =>
           map (question_object db)
             (filter (fun q => (Question.section_id q =? Sections.id s)
                               && Bool.eqb (Question.archived q) false)
                (question db)))
        (filter (fun s => Sections.form_id s =? fid) (sections db)).
Proof.
  intros [f [Hf Hid]].
  unfold get_formId_all, select_form_all. rewrite as_int_show.
  destruct (filter (fun f0 => Pg.int_eq (Forms.id f0) (Some fid)) (forms db))
    as [ | f0 rest ] eqn:Hrows.
  - exfalso.
    assert (Hin : In f (filter (fun f0 => Pg.int_eq (Forms.id f0) (Some fid))
                          (forms db))).
    { apply filter_In. split; [exact Hf | ]. simpl. now apply Z.eqb_eq. }
    rewrite Hrows in Hin. contradiction.
  - assert (Hin : In f0 (filter (fun f1 => Pg.int_eq (Forms.id f1) (Some fid))
                           (forms db)))
      by (rewrite Hrows; now left).
    apply filter_In in Hin as [_ Hf0]. simpl in Hf0. apply Z.eqb_eq in Hf0.
    exists (form_object db f0). cbn [hd_error].
    split; [reflexivity | ]. split; [exact Hf0 | ].
    rewrite questions_of_form_object. now rewrite Hf0.
Qed.

(** A question object, field by field. *)
Lemma question_object_fields (db : database) (q : Question.row) :
  question_object db q
  = {| q_type := "Question";
       q_question := Question.question q;
       q_description := Question.description q;
       q_order := Question.order q;
       q_answer_type := Question.answer_type q;
       q_multiple_choice_answers :=
         match filter (fun a => MCAnswer.question_id a =? Question.id q)
                 (multiple_choice_answers db) with
         | [] => None
         | answers =>
             Some (map (fun a => {| mc_type := "MCAnswer";
                                    mc_id := MCAnswer.id a;
                                    mc_answer := MCAnswer.answer a |})
                     answers)
         end |}.
Proof.
  unfold question_object. f_equal.
  now destruct (filter _ (multiple_choice_answers db)).
Qed.

(** What the query lists of a section once [qid] is archived. *)
Lemma listed_after_archive (db : database) (qid sid : Z)
  (l : list Question.row) :
  map (question_object (archive_question qid db))
    (filter (fun q => (Question.section_id q =? sid)
                      && Bool.eqb (Question.archived q) false)
       (map (fun q =>
               if Question.id q =? qid
               then {| Question.id := Question.id q;
                       Question.section_id := Question.section_id q;
                       Question.question := Question.question q;
                       Question.description := Question.description q;
                       Question.order := Question.order q;
                       Question.answer_type := Question.answer_type q;
                       Question.archived := true |}
               else q) l))
  = map (question_object db)
      (filter (fun q => (Question.section_id q =? sid)
                        && negb (Question.archived q)
                        && negb (Question.id q =? qid)) l).
Proof.
  induction l as [ | q l IH ]; [reflexivity | ].
  cbn [map filter].
  destruct (Question.id q =? qid); cbn [Question.section_id Question.archived].
  - rewrite !andb_false_r. exact IH.
  - rewrite andb_true_r.
    replace (Bool.eqb (Question.archived q) false)
      with (negb (Question.archived q))
      by now destruct (Question.archived q).
    destruct ((Question.section_id q =? sid) && negb (Question.archived q));
      [ | exact IH].
    cbn [map]. now rewrite IH.
Qed.

End FormDocument.

(** C5. For a form that exists, [GET /:formId/all] answers 200 with the
    document of that form and leaves the tables alone.  The question
    objects of the document are, section of the form by section and row by
    row, one object for each question row of the section that has
    [archived = false], with the question, description, order and answer
    type of the row and the answers to choose from that name the row, or
    [null] when there are none.  After [archived=true] is set on the
    questions with id [qid], the question table has the same rows in the
    same places, those with id [qid] now archived, and the document lists
    the same objects as before less those of the rows with id [qid]. *)
Theorem archived_question_is_hidden_not_deleted
  (db : database) (fid qid : Z) :
  (exists f, In f (forms db) /\ Forms.id f = fid) ->
  let listed (keep : Question.row -> bool) : list FormRouter.question_json :=
    flat_map
      (fun s =>
         map (fun q =>
                {| FormRouter.q_type := "Question";
                   FormRouter.q_question := Question.question q;
                   FormRouter.q_description := Question.description q;
                   FormRouter.q_order := Question.order q;
                   FormRouter.q_answer_type := Question.answer_type q;
                   FormRouter.q_multiple_choice_answers :=
                     match filter (fun a => MCAnswer.question_id a
                                            =? Question.id q)
                             (multiple_choice_answers db) with
                     | [] => None
                     | answers =>
                         Some (map (fun a =>
                                      {| FormRouter.mc_type := "MCAnswer";
                                         FormRouter.mc_id := MCAnswer.id a;
                                         FormRouter.mc_answer :=
                                           MCAnswer.answer a |})
                                 answers)
                     end |})
           (filter (fun q => (Question.section_id q =? Sections.id s)
                             && negb (Question.archived q) && keep q)
              (question db)))
      (filter (fun s => Sections.form_id s =? fid) (sections db)) in
  (exists doc,
      FormRouter.get_formId_all (Pg.show_int fid) db
      = ({| FormRouter.status := 200;
            FormRouter.sent := FormRouter.Document (Some doc) |}, db) /\
      FormRouter.f_id doc = fid /\
      FormRouter.questions_of doc = listed (fun _ => true)) /\
  let db' := FormRouter.archive_question qid db in
  map Question.id (question db') = map Question.id (question db) /\
  (forall q, In q (question db') -> Question.id q = qid ->
             Question.archived q = true) /\
  exists doc',
    FormRouter.get_formId_all (Pg.show_int fid) db'
    = ({| FormRouter.status := 200;
          FormRouter.sent := FormRouter.Document (Some doc') |}, db') /\
    FormRouter.f_id doc' = fid /\
    FormRouter.questions_of doc'
    = listed (fun q => negb (Question.id q =? qid)).
Proof.
  intros Hform listed. split.
  - destruct (form_document_questions db fid Hform) as [doc (Hrun & Hid & Hq)].
    exists doc. split; [exact Hrun | ]. split; [exact Hid | ].
    rewrite Hq. unfold listed. apply flat_map_ext. intros s.
    rewrite (map_ext _ _ (question_object_fields db)).
    f_equal. apply filter_ext. intros q.
    rewrite andb_true_r. now destruct (Question.archived q).
  - intros db'. split; [ | split ].
    + unfold db', FormRouter.archive_question. simpl.
      rewrite map_map. apply map_ext. intros q.
      now destruct (Question.id q =? qid).
    + intros q' Hq' Hid.
      apply archive_question_rows in Hq' as (q & _ & E1 & _ & _ & _ & _ & _ & E7).
      rewrite E7. rewrite <- E1, Hid. now rewrite Z.eqb_refl.
    + destruct (form_document_questions db' fid Hform)
        as [doc' (Hrun & Hid & Hq)].
      exists doc'. split; [exact Hrun | ]. split; [exact Hid | ].
      rewrite Hq. unfold listed. apply flat_map_ext. intros s.
      rewrite <- (map_ext _ _ (question_object_fields db)).
      exact (listed_after_archive db qid (Sections.id s) (question db)).
Qed.

Lemma archived_question_is_hidden_not_deleted_witness :
  (exists f, In f (forms Sample.db) /\ Forms.id f = 1) /\
  exists doc',
    FormRouter.get_formId_all (Pg.show_int 1)
      (FormRouter.archive_question 2 Sample.db)
    = ({| FormRouter.status := 200;
          FormRouter.sent := FormRouter.Document (Some doc') |},
       FormRouter.archive_question 2 Sample.db) /\
    FormRouter.f_id doc' = 1 /\
    map FormRouter.q_question (FormRouter.questions_of doc')
    = ["What is your name?"].
Proof.
  assert (H : exists f, In f (forms Sample.db) /\ Forms.id f = 1).
  { eexists. split; [ simpl; left; reflexivity | reflexivity ]. }
  split; [exact H | ].
  destruct (proj2 (proj2 (proj2
              (archived_question_is_hidden_not_deleted Sample.db 1 2 H))))
    as [doc' (Hrun & Hid & Hq)].
  exists doc'. split; [exact Hrun | ]. split; [exact Hid | ].
  rewrite Hq. reflexivity.
Defined.

(** The document of the example form before and after question 2 is
    archived: two question objects, then one. *)
Example sample_form_questions :
  (exists doc,
      FormRouter.sent (fst (FormRouter.get_formId_all "1" Sample.db))
      = FormRouter.Document (Some doc) /\
      map FormRouter.q_question (FormRouter.questions_of doc)
      = ["What is your name?"; "Have you volunteered before?"]) /\
  (exists doc,
      FormRouter.sent
        (fst (FormRouter.get_formId_all "1"
                (FormRouter.archive_question 2 Sample.db)))
      = FormRouter.Document (Some doc) /\
      map FormRouter.q_question (FormRouter.questions_of doc)
      = ["What is your name?"]).
Proof.
  split; eexists; split; reflexivity.
Qed.

(** ** Submissions *)

(** C6. Two calls of create-or-get in a row for the same form and user
    give the same submission id; the second finds the submission the
    first returned and adds no row.  The first adds one row, with a fresh
    id, exactly when no submission of that form and user exists. *)
Theorem create_or_get_submission_twice
  (form user : Z) (t : Submission.table) :
  let (id1, t1) := Submission.create_or_get_submission form user t in
  let (id2, t2) := Submission.create_or_get_submission form user t1 in
  id1 = id2 /\ t2 = t1 /\
  (exists r, In r (Submission.rows t1) /\ Submission.id r = id1 /\
             Submission.form_id r = form /\ Submission.user_id r = user) /\
  ((forall r, In r (Submission.rows t) ->
              ~ (Submission.form_id r = form /\ Submission.user_id r = user))
   -> Submission.rows t1
      = Submission.rows t ++ [ {| Submission.id := Submission.id_seq t;
                                  Submission.form_id := form;
                                  Submission.user_id := user |} ]) /\
  ((exists r, In r (Submission.rows t) /\ Submission.form_id r = form /\
              Submission.user_id r = user)
   -> t1 = t).
Proof.
  unfold Submission.create_or_get_submission.
  set (same := fun r => (Submission.form_id r =? form)
                        && (Submission.user_id r =? user)).
  assert (Hsame : forall r, same r = true <->
                            Submission.form_id r = form /\
                            Submission.user_id r = user).
  { intros r. unfold same. rewrite andb_true_iff, !Z.eqb_eq. tauto. }
  destruct (find same (Submission.rows t)) as [r | ] eqn:Hfind.
  - rewrite Hfind. apply find_some in Hfind as [Hin Hr].
    apply Hsame in Hr as [Hf Hu].
    repeat split; auto.
    + exists r. auto.
    + intros Hnone. exfalso. apply (Hnone r Hin). auto.
  - simpl.
    assert (Hnew : find same
              (Submission.rows t ++
               [ {| Submission.id := Submission.id_seq t;
                    Submission.form_id := form;
                    Submission.user_id := user |} ])
            = Some {| Submission.id := Submission.id_seq t;
                      Submission.form_id := form;
                      Submission.user_id := user |}).
    { induction (Submission.rows t) as [ | x l IH ]; simpl in *.
      - unfold same. simpl. now rewrite !Z.eqb_refl.
      - destruct (same x); [discriminate | ]. now apply IH. }
    rewrite Hnew. simpl. repeat split; auto.
    + eexists. split; [ apply in_or_app; right; left; reflexivity | ].
      simpl. auto.
    + intros [r (Hin & Hf & Hu)]. exfalso.
      apply (find_none _ _ Hfind) in Hin.
      assert (same r = true) by (apply Hsame; auto). congruence.
Qed.

(** ** Credentials *)

Section Counting.

Lemma flat_map_length_const {A B : Type} (f : A -> list B) (l : list A)
  (k : nat) :
  (forall x, In x l -> List.length (f x) = k) ->
  List.length (flat_map f l) = (List.length l * k)%nat.
Proof.
  induction l as [ | x l IH ]; intros H; simpl.
  - reflexivity.
  - rewrite length_app, (H x (or_introl eq_refl)), IH; [reflexivity | ].
    intros y Hy. apply H. now right.
Qed.

Lemma words_length (n : nat) (alphabet : list ascii) :
  Z.of_nat (List.length (words n alphabet))
  = Z.of_nat (List.length alphabet) ^ Z.of_nat n.
Proof.
  induction n as [ | n IH ].
  - reflexivity.
  - change (words (S n) alphabet)
      with (flat_map (fun c => map (String c) (words n alphabet)) alphabet).
    rewrite (flat_map_length_const _ _ (List.length (words n alphabet))).
    + rewrite Nat2Z.inj_mul, IH, Nat2Z.inj_succ, Z.pow_succ_r; lia.
    + intros c _. now rewrite length_map.
Qed.

Lemma words_spec (n : nat) (alphabet : list ascii) (s : string) :
  In s (words n alphabet) <-> String.length s = n /\ spelt alphabet s.
Proof.
  revert s. induction n as [ | n IH ]; intros s.
  - simpl. split.
    + intros [<- | []]. split; [reflexivity | constructor].
    + intros [Hl _]. left. destruct s; [reflexivity | discriminate].
  - change (words (S n) alphabet)
      with (flat_map (fun c => map (String c) (words n alphabet)) alphabet).
    rewrite in_flat_map. split.
    + intros [c [Hc Hs]]. apply in_map_iff in Hs as [s' [<- Hs']].
      apply IH in Hs' as [Hl Hsp]. split.
      * simpl. now rewrite Hl.
      * constructor; assumption.
    + intros [Hl Hsp]. destruct s as [ | c s' ]; [discriminate | ].
      inversion Hsp as [ | ? ? Hc Hsp' ]; subst.
      exists c. split; [exact Hc | ].
      apply in_map. apply IH. split; [ | exact Hsp' ].
      simpl in Hl. now injection Hl.
Qed.

Lemma prefixed_NoDup (ws : list string) (alphabet : list ascii) :
  NoDup ws -> NoDup alphabet ->
  NoDup (flat_map (fun c => map (String c) ws) alphabet).
Proof.
  intros Hws Ha. induction Ha as [ | c l Hc Hl IHl ]; simpl.
  - constructor.
  - apply NoDup_app.
    + apply NoDup_map_NoDup_ForallPairs; [ | exact Hws ].
      intros x y _ _ E. now injection E.
    + exact IHl.
    + intros s Hs Hs'.
      apply in_map_iff in Hs as [s1 [<- _]].
      apply in_flat_map in Hs' as [c' [Hc' Hs']].
      apply in_map_iff in Hs' as [s2 [E _]].
      injection E as -> _. contradiction.
Qed.

Lemma words_NoDup (n : nat) (alphabet : list ascii) :
  NoDup alphabet -> NoDup (words n alphabet).
Proof.
  intros Ha. induction n as [ | n IH ].
  - simpl. constructor; [ intros [] | constructor ].
  - now apply prefixed_NoDup.
Qed.

Lemma printable_NoDup : NoDup printable.
Proof.
  unfold printable. apply NoDup_map_NoDup_ForallPairs.
  - intros x y Hx Hy E. apply in_seq in Hx, Hy.
    rewrite <- (nat_ascii_embedding x), <- (nat_ascii_embedding y) by lia.
    now rewrite E.
  - apply seq_NoDup.
Qed.

(** Among the printable passwords of 32 characters there are more than
    there are texts of 31 radix-64 characters, so no function from the
    former to the latter tells them all apart. *)
Lemma passwords_collide (h : string -> string) :
  (forall p, String.length (h p) = 31%nat /\ spelt radix64 (h p)) ->
  ~ (forall p p2, In p (words 32 printable) -> In p2 (words 32 printable) ->
                  h p = h p2 -> p = p2).
Proof.
  intros Hfmt Hinj.
  assert (Hnd : NoDup (map h (words 32 printable))).
  { apply NoDup_map_NoDup_ForallPairs.
    - intros p p2 Hp Hp2. now apply Hinj.
    - apply words_NoDup, printable_NoDup. }
  assert (Hincl : incl (map h (words 32 printable)) (words 31 radix64)).
  { intros t Ht. apply in_map_iff in Ht as [p [<- _]].
    apply words_spec. apply Hfmt. }
  pose proof (NoDup_incl_length Hnd Hincl) as Hle.
  rewrite length_map in Hle. apply Nat2Z.inj_le in Hle.
  rewrite !words_length in Hle.
  change (Z.of_nat (List.length printable)) with 95 in Hle.
  change (Z.of_nat (List.length radix64)) with 64 in Hle.
  apply Z.leb_le in Hle. vm_compute in Hle. discriminate Hle.
Qed.

End Counting.

Section RoundTrip.

Lemma string_length_append (a b : string) :
  String.length (String.append a b) = (String.length a + String.length b)%nat.
Proof.
  induction a as [ | c a IH ]; simpl; [reflexivity | now rewrite IH].
Qed.

Lemma substring_prefix (a b : string) :
  substring 0 (String.length a) (String.append a b) = a.
Proof.
  induction a as [ | c a IH ]; simpl.
  - now destruct b.
  - now rewrite IH.
Qed.

Lemma substring_whole (a : string) : substring 0 (String.length a) a = a.
Proof.
  induction a as [ | c a IH ]; simpl; [reflexivity | now rewrite IH].
Qed.

Lemma eqb_append_same (a b c : string) :
  String.eqb (String.append a b) (String.append a c) = String.eqb b c.
Proof.
  induction a as [ | x a IH ]; simpl; [reflexivity | ].
  now rewrite Ascii.eqb_refl.
Qed.

Variable crypt : string -> string -> string.
Hypothesis crypt_format : bcrypt_core crypt.

Variable noise : string.
Hypothesis noise_length : String.length noise = 22%nat.

Lemma salt_length :
  String.length (Encryption.genSaltSync Encryption.SALT_WORK_FACTOR noise)
  = 29%nat.
Proof.
  unfold Encryption.genSaltSync, Encryption.SALT_WORK_FACTOR. simpl.
  now rewrite noise_length.
Qed.

Lemma encryptPassword_shape (p : string) :
  Encryption.encryptPassword crypt noise p
  = String.append
      (Encryption.genSaltSync Encryption.SALT_WORK_FACTOR noise)
      (crypt (Encryption.genSaltSync Encryption.SALT_WORK_FACTOR noise) p).
Proof.
  unfold Encryption.encryptPassword, Encryption.hashSync.
  rewrite <- salt_length. now rewrite substring_whole.
Qed.

(** Verifying a candidate against the hash of [p] compares what the core
    makes of the candidate and of [p] under the salt of the hash. *)
Lemma comparePassword_against_hash (p p2 : string) :
  Encryption.comparePassword crypt p2
    (Encryption.encryptPassword crypt noise p)
  = String.eqb
      (crypt (Encryption.genSaltSync Encryption.SALT_WORK_FACTOR noise) p2)
      (crypt (Encryption.genSaltSync Encryption.SALT_WORK_FACTOR noise) p).
Proof.
  unfold Encryption.comparePassword, Encryption.compareSync.
  rewrite encryptPassword_shape.
  set (salt := Encryption.genSaltSync Encryption.SALT_WORK_FACTOR noise).
  assert (Hlen : String.length (String.append salt (crypt salt p)) = 60%nat).
  { rewrite string_length_append. unfold salt. rewrite salt_length.
    now rewrite (proj1 (crypt_format _ _)). }
  rewrite Hlen. simpl Nat.eqb. cbv iota.
  change (60 - 31)%nat with 29%nat.
  assert (Hsalt : substring 0 29 (String.append salt (crypt salt p)) = salt).
  { rewrite <- salt_length. apply substring_prefix. }
  rewrite Hsalt. unfold Encryption.hashSync.
  assert (Hwhole : substring 0 29 salt = salt).
  { rewrite <- salt_length. apply substring_whole. }
  rewrite Hwhole. apply eqb_append_same.
Qed.

End RoundTrip.


(** C7 as the specification words it fails for every bcrypt core: a core
    returns 31 radix-64 characters, so two different printable passwords
    of 32 characters have the same hash under a salt, and each verifies
    against the hash of the other. *)
Lemma no_core_tells_all_passwords_apart :
  ~ exists crypt, bcrypt_core crypt /\ hash_verify_round_trip crypt.
Proof.
  intros [crypt [Hfmt Hclaim]].
  set (noise := "......................").
  set (salt := Encryption.genSaltSync Encryption.SALT_WORK_FACTOR noise).
  apply (passwords_collide (crypt salt)); [ intros p; apply Hfmt | ].
  intros p p2 Hp Hp2 Hsame.
  destruct (string_dec p2 p) as [E | Hne]; [now symmetry | exfalso].
  apply words_spec in Hp as [Hlen Hsp].
  destruct (Hclaim noise p p2 eq_refl Hsp) as [_ Hfalse].
  { rewrite Hlen. repeat constructor. }
  specialize (Hfalse Hne).
  rewrite (comparePassword_against_hash crypt Hfmt noise eq_refl) in Hfalse.
  fold salt in Hfalse. rewrite Hsame, String.eqb_refl in Hfalse.
  discriminate Hfalse.
Qed.

(** C7, amended.  Whatever the random bytes of the salt are, a password
    verifies against its own hash, and another password fails to verify
    against that hash exactly when the bcrypt core, under the salt of the
    hash, gives it a text other than the one it gives the password. *)
Theorem hash_then_verify
  (crypt : string -> string -> string) (noise p p2 : string) :
  bcrypt_core crypt -> String.length noise = 22%nat ->
  Encryption.comparePassword crypt p
    (Encryption.encryptPassword crypt noise p) = true /\
  (Encryption.comparePassword crypt p2
     (Encryption.encryptPassword crypt noise p) = false <->
   crypt (Encryption.genSaltSync Encryption.SALT_WORK_FACTOR noise) p2
   <> crypt (Encryption.genSaltSync Encryption.SALT_WORK_FACTOR noise) p).
Proof.
  intros Hfmt Hnoise. split.
  - rewrite (comparePassword_against_hash crypt Hfmt noise Hnoise).
    apply String.eqb_refl.
  - rewrite (comparePassword_against_hash crypt Hfmt noise Hnoise).
    apply String.eqb_neq.
Qed.

Lemma toy_core_format : bcrypt_core Sample.toy_core.
Proof.
  intros salt s. unfold Sample.toy_core.
  destruct (String.eqb s "correct horse"); (split; [reflexivity | ]);
    unfold spelt; simpl;
    repeat (constructor;
            [ unfold radix64; simpl;
              repeat (try (left; reflexivity); right) | ]);
    constructor.
Qed.

Lemma hash_then_verify_witness :
  (bcrypt_core Sample.toy_core /\
   String.length "abcdefghijklmnopqrstuv" = 22%nat) /\
  Encryption.comparePassword Sample.toy_core "correct horse"
    (Encryption.encryptPassword Sample.toy_core "abcdefghijklmnopqrstuv"
       "correct horse") = true /\
  (Encryption.comparePassword Sample.toy_core "Tr0ub4dor&3"
     (Encryption.encryptPassword Sample.toy_core "abcdefghijklmnopqrstuv"
        "correct horse") = false <->
   Sample.toy_core
     (Encryption.genSaltSync Encryption.SALT_WORK_FACTOR
        "abcdefghijklmnopqrstuv") "Tr0ub4dor&3"
   <> Sample.toy_core
        (Encryption.genSaltSync Encryption.SALT_WORK_FACTOR
           "abcdefghijklmnopqrstuv") "correct horse").
Proof.
  split; [ split; [exact toy_core_format | reflexivity] | ].
  exact (hash_then_verify Sample.toy_core "abcdefghijklmnopqrstuv"
           "correct horse" "Tr0ub4dor&3" toy_core_format eq_refl).
Defined.

(** ** The client store *)

(** C9 as the specification words it fails for [addPipeline]: when its
    POST is rejected the pipelines in the store stay as they were instead
    of becoming [[]], and when the POST is fulfilled the store takes the
    answer of the refresh that follows, not the answer of the POST. *)
Lemma addPipeline_keeps_pipelines_on_failure :
  Store.pipelines
    (Store.store
       (Store.addPipeline Sample.offline
          (Store.JObj [("name", Store.JStr "Donors")]) Sample.world))
  = Store.JArr [Store.JObj [("name", Store.JStr "Volunteer")]] /\
  Store.pipelines
    (Store.store
       (Store.addPipeline Sample.offline
          (Store.JObj [("name", Store.JStr "Donors")]) Sample.world))
  <> Store.JArr [] /\
  Store.pipelines
    (Store.store
       (Store.addPipeline Sample.online
          (Store.JObj [("name", Store.JStr "Donors")]) Sample.world))
  = Store.JArr [Store.JObj [("name", Store.JStr "Volunteer")];
                Store.JObj [("name", Store.JStr "Donors")]].
Proof.
  split; [reflexivity | ]. split; [discriminate | reflexivity].
Qed.

(** C9, amended.  [fetchPipeline] and [fetchPipelineById] send one
    request; when it is rejected they set their slice ([pipelines],
    [selectedPipeline]) to its empty value, and when it is fulfilled they
    set the slice to the data of the response, whatever the slice held;
    the other slice is not touched.  [addPipeline] sends its POST once;
    when the POST is rejected the store stays as it was and nothing more
    is sent, and when it is fulfilled [addPipeline] goes on as
    [fetchPipeline] does. *)
Theorem store_actions_settle
  (net : Store.network) (w : Store.world) (newPipeline : Store.json)
  (pipelineId : string) :
  let n := List.length (Store.requests w) in
  let list_all := Store.Get "/api/pipeline" in
  let one := Store.Get (String.append "/api/pipeline/" pipelineId) in
  let post := Store.Post "/api/pipeline" newPipeline in
  (net n list_all = Store.Rejected ->
   Store.fetchPipeline net w
   = {| Store.store :=
          {| Store.pipelines := Store.JArr [];
             Store.selectedPipeline := Store.selectedPipeline (Store.store w) |};
        Store.requests := Store.requests w ++ [list_all] |}) /\
  (forall data, net n list_all = Store.Fulfilled data ->
   Store.fetchPipeline net w
   = {| Store.store :=
          {| Store.pipelines := data;
             Store.selectedPipeline := Store.selectedPipeline (Store.store w) |};
        Store.requests := Store.requests w ++ [list_all] |}) /\
  (net n one = Store.Rejected ->
   Store.fetchPipelineById net pipelineId w
   = {| Store.store :=
          {| Store.pipelines := Store.pipelines (Store.store w);
             Store.selectedPipeline := Store.JObj [] |};
        Store.requests := Store.requests w ++ [one] |}) /\
  (forall data, net n one = Store.Fulfilled data ->
   Store.fetchPipelineById net pipelineId w
   = {| Store.store :=
          {| Store.pipelines := Store.pipelines (Store.store w);
             Store.selectedPipeline := data |};
        Store.requests := Store.requests w ++ [one] |}) /\
  (net n post = Store.Rejected ->
   Store.addPipeline net newPipeline w
   = {| Store.store := Store.store w;
        Store.requests := Store.requests w ++ [post] |}) /\
  (forall data, net n post = Store.Fulfilled data ->
   Store.addPipeline net newPipeline w
   = Store.fetchPipeline net
       {| Store.store := Store.store w;
          Store.requests := Store.requests w ++ [post] |}).
Proof.
  intros n list_all one post.
  unfold Store.fetchPipeline, Store.fetchPipelineById, Store.addPipeline,
    Store.axios.
  fold n list_all one post.
  repeat split; intros; try match goal with H : net _ _ = _ |- _ =>
                                   rewrite H end; reflexivity.
Qed.

Lemma store_actions_settle_witness :
  Store.fetchPipeline Sample.offline Sample.world
  = {| Store.store :=
         {| Store.pipelines := Store.JArr [];
            Store.selectedPipeline := Store.JObj [] |};
       Store.requests := [Store.Get "/api/pipeline"] |} /\
  Store.addPipeline Sample.offline (Store.JStr "Donors") Sample.world
  = {| Store.store := Store.store Sample.world;
       Store.requests :=
         [Store.Post "/api/pipeline" (Store.JStr "Donors")] |}.
Proof.
  pose proof (store_actions_settle Sample.offline Sample.world
                (Store.JStr "Donors") "1") as H.
  split.
  - exact (proj1 H eq_refl).
  - exact (proj1 (proj2 (proj2 (proj2 (proj2 H)))) eq_refl).
Defined.

(* ================================================================== *)
(** * Part III. Further properties of the code *)
(* ================================================================== *)

(** ** Which routes a request can reach *)

Section Reach.

Import PipelineRouter.

(** Whatever ['/user_status/remove'] takes, ['/user_status/:userId']
    takes. *)
Lemma remove_is_shadowed (url : string) :
  match_path "/user_status/:userId" url = None ->
  match_path "/user_status/remove" url = None.
Proof.
  unfold match_path.
  change (segments "/user_status/:userId")
    with [EmptyString; "user_status"; ":userId"].
  change (segments "/user_status/remove")
    with [EmptyString; "user_status"; "remove"].
  generalize (segments url). intros l.
  destruct l as [ | a [ | b [ | c l ] ] ]; try reflexivity;
    cbn [match_segments].
  - now destruct (String.eqb EmptyString a).
  - destruct (String.eqb EmptyString a); [ | reflexivity ].
    now destruct (String.eqb "user_status" b).
  - destruct (String.eqb EmptyString a); [ | reflexivity ].
    destruct (String.eqb "user_status" b); [ | reflexivity ].
    destruct (String.eqb_spec "remove" c) as [E | E];
      [subst c | reflexivity].
    destruct l as [ | [ | d e ] [ | f l ] ]; try reflexivity;
      intros H; discriminate H.
Qed.

(** A route path without its leading slash takes no path that has one. *)
Lemma slashless_route_is_dead (rest : string) :
  match_path "pipeline_status/:id" (String "/" rest) = None.
Proof.
  unfold match_path.
  change (segments "pipeline_status/:id") with ["pipeline_status"; ":id"].
  change (segments (String "/" rest)) with (EmptyString :: segments rest).
  reflexivity.
Qed.

End Reach.

(** X1. For every method, every request path (a path starts with a
    slash), session and body, the router answers as its nine other routes
    alone would: the handlers of ['pipeline_status/:id'] and
    ['/user_status/remove'] are never run. *)
Theorem two_routes_are_never_reached
  (m : PipelineRouter.method) (rest : string) (auth : bool)
  (json_body : list (string * Pg.jsval)) (db : database) :
  PipelineRouter.dispatch PipelineRouter.router m (String "/" rest)
    auth json_body db
  = PipelineRouter.dispatch routes_reached m (String "/" rest)
      auth json_body db.
Proof.
  unfold PipelineRouter.router, routes_reached.
  destruct m;
    cbn [PipelineRouter.dispatch PipelineRouter.method_eqb
         PipelineRouter.verb PipelineRouter.path PipelineRouter.run];
    try reflexivity.
  rewrite slashless_route_is_dead.
  destruct (PipelineRouter.match_path "/:id" (String "/" rest));
    [reflexivity | ].
  destruct (PipelineRouter.match_path "/user_status/:userId"
              (String "/" rest)) eqn:Hmove; [reflexivity | ].
  now rewrite (remove_is_shadowed _ Hmove).
Qed.

(** ** Sessions *)

(** X2. The two GET routes carry no session check and write nothing: the
    answer to a GET request depends neither on the session nor on the
    body, and the tables are afterwards what they were. *)
Theorem reading_needs_no_session
  (url : string) (auth auth' : bool)
  (json_body json_body' : list (string * Pg.jsval)) (db : database) :
  PipelineRouter.dispatch PipelineRouter.router PipelineRouter.GET url
    auth json_body db
  = PipelineRouter.dispatch PipelineRouter.router PipelineRouter.GET url
      auth' json_body' db /\
  forall answer db',
    PipelineRouter.dispatch PipelineRouter.router PipelineRouter.GET url
      auth json_body db = Some (answer, db') ->
    db' = db.
Proof.
  unfold PipelineRouter.router.
  cbn [PipelineRouter.dispatch PipelineRouter.method_eqb
       PipelineRouter.verb PipelineRouter.path PipelineRouter.run].
  destruct (PipelineRouter.match_path "/" url) as [bound | ].
  - split; [reflexivity | ].
    intros answer db' H. unfold PipelineRouter.get_root in H.
    now injection H as _ <-.
  - destruct (PipelineRouter.match_path "/:pipelineId" url) as [bound | ].
    + split; [reflexivity | ].
      intros answer db' H.
      unfold PipelineRouter.get_pipelineId in H.
      destruct (PipelineRouter.select_kanban _ db);
        now injection H as _ <-.
    + split; [reflexivity | discriminate].
Qed.

(** X3. Every route that writes is behind the session check: a POST, PUT
    or DELETE request of a client without a session is either taken by no
    route or answered by the check itself, and the tables stay as they
    were. *)
Theorem writing_needs_a_session
  (m : PipelineRouter.method) (url : string)
  (json_body : list (string * Pg.jsval)) (db : database) :
  m <> PipelineRouter.GET ->
  PipelineRouter.dispatch PipelineRouter.router m url false json_body db
  = None \/
  PipelineRouter.dispatch PipelineRouter.router m url false json_body db
  = Some (PipelineRouter.sendStatus 403, db).
Proof.
  intros Hm. unfold PipelineRouter.router.
  destruct m; [contradiction | | | ];
    cbn [PipelineRouter.dispatch PipelineRouter.method_eqb
         PipelineRouter.verb PipelineRouter.path PipelineRouter.run];
    repeat match goal with
           | |- context [PipelineRouter.match_path ?p url] =>
               destruct (PipelineRouter.match_path p url)
           end;
    auto.
Qed.

Lemma writing_needs_a_session_witness :
  PipelineRouter.DELETE <> PipelineRouter.GET /\
  (PipelineRouter.dispatch PipelineRouter.router PipelineRouter.DELETE "/1"
     false [] Sample.db = None \/
   PipelineRouter.dispatch PipelineRouter.router PipelineRouter.DELETE "/1"
     false [] Sample.db
   = Some (PipelineRouter.sendStatus 403, Sample.db)).
Proof.
  assert (H : PipelineRouter.DELETE <> PipelineRouter.GET) by discriminate.
  split; [exact H | ].
  exact (writing_needs_a_session PipelineRouter.DELETE "/1" [] Sample.db H).
Defined.

(** ** Ids that are no integers *)

Section NoInteger.

Lemma uint_of_char_no_digit (c : ascii) (d : option Decimal.uint) :
  ~ In c Pg.decimal_digits -> uint_of_char c d = None.
Proof.
  intros Hc. destruct d as [d | ]; [ | reflexivity ].
  destruct c as [[] [] [] [] [] [] [] []]; try reflexivity;
    exfalso; apply Hc; unfold Pg.decimal_digits; simpl; tauto.
Qed.

Lemma digitless_drop_trailing_blanks (s : string) :
  digitless s -> digitless (Pg.drop_trailing_blanks s).
Proof.
  unfold digitless. induction s as [ | c s IH ]; intros H; [exact H | ].
  inversion H as [ | c' l' Hc Hs ]; subst.
  cbn [Pg.drop_trailing_blanks].
  destruct (Pg.all_blank (String c s)); [constructor | ].
  constructor; [exact Hc | now apply IH].
Qed.

Lemma digitless_skip_blanks (s : string) :
  digitless s -> digitless (Pg.skip_blanks s).
Proof.
  unfold digitless. induction s as [ | c s IH ]; intros H; [exact H | ].
  inversion H as [ | c' l' Hc Hs ]; subst.
  cbn [Pg.skip_blanks]. destruct (Pg.is_blank c); [now apply IH | exact H].
Qed.

Lemma unsigned_digitless (s : string) :
  digitless s -> Pg.unsigned s = None.
Proof.
  intros H. apply digitless_drop_trailing_blanks in H.
  unfold Pg.unsigned. destruct (Pg.drop_trailing_blanks s) as [ | c r ];
    [reflexivity | ].
  inversion H as [ | c' l' Hc Hs ]; subst.
  unfold NilZero.uint_of_string. cbn [NilEmpty.uint_of_string].
  now apply uint_of_char_no_digit.
Qed.

(** A text without a digit is no integer. *)
Lemma parse_int_digitless (s : string) :
  digitless s -> Pg.parse_int s = None.
Proof.
  intros H. apply digitless_skip_blanks in H. unfold Pg.parse_int.
  destruct (Pg.skip_blanks s) as [ | c r ].
  - now rewrite unsigned_digitless.
  - assert (Hr : Pg.unsigned r = None).
    { apply unsigned_digitless. now inversion H. }
    assert (Hcr : Pg.unsigned (String c r) = None)
      by now apply unsigned_digitless.
    destruct c as [[] [] [] [] [] [] [] []];
      first [ now rewrite Hr | now rewrite Hcr ].
Qed.

End NoInteger.

(** X4. A route parameter without a digit in it is no integer and makes
    the query fail: the routes that take an id in their path answer 500
    for it, whatever else the request holds, and leave the tables as they
    were. *)
Theorem id_that_is_no_integer
  (text : string) (auth : bool) (json_body : list (string * Pg.jsval))
  (db : database) :
  digitless text ->
  let req k := {| PipelineRouter.authenticated := auth;
                  PipelineRouter.params := [(k, text)];
                  PipelineRouter.body := json_body |} in
  PipelineRouter.get_pipelineId (req "pipelineId") db
  = (PipelineRouter.sendStatus 500, db) /\
  PipelineRouter.delete_id (req "id") db
  = (PipelineRouter.sendStatus 500, db) /\
  PipelineRouter.put_id (req "id") db
  = (PipelineRouter.sendStatus 500, db) /\
  PipelineRouter.delete_pipeline_status_id (req "id") db
  = (PipelineRouter.sendStatus 500, db) /\
  PipelineRouter.put_user_status_userId (req "userId") db
  = (PipelineRouter.sendStatus 500, db).
Proof.
  intros Hno req. apply parse_int_digitless in Hno.
  assert (Hint : Pg.as_int (Pg.JString text) = None).
  { unfold Pg.as_int. simpl. now rewrite Hno. }
  repeat split.
  - unfold PipelineRouter.get_pipelineId, PipelineRouter.select_kanban,
      PipelineRouter.param. simpl. now rewrite Hint.
  - unfold PipelineRouter.delete_id, PipelineRouter.delete_pipeline,
      PipelineRouter.param. simpl. now rewrite Hint.
  - unfold PipelineRouter.put_id, PipelineRouter.update_pipeline_name,
      PipelineRouter.param. simpl. now rewrite Hint.
  - unfold PipelineRouter.delete_pipeline_status_id,
      PipelineRouter.delete_pipeline_status, PipelineRouter.param.
    simpl. now rewrite Hint.
  - unfold PipelineRouter.put_user_status_userId,
      PipelineRouter.update_user_status, PipelineRouter.param.
    simpl. rewrite Hint.
    now destruct (Pg.as_int (PipelineRouter.field _ "pipeline_status_id")).
Qed.

Lemma id_that_is_no_integer_witness :
  digitless "abc" /\
  PipelineRouter.get_pipelineId
    {| PipelineRouter.authenticated := true;
       PipelineRouter.params := [("pipelineId", "abc")];
       PipelineRouter.body := [] |} Sample.db
  = (PipelineRouter.sendStatus 500, Sample.db).
Proof.
  assert (H : digitless "abc").
  { unfold digitless, Pg.decimal_digits. simpl.
    repeat constructor; intros Hin; simpl in Hin;
      repeat (destruct Hin as [Hin | Hin]; [discriminate Hin | ]);
      exact Hin. }
  split; [exact H | ].
  exact (proj1 (id_that_is_no_integer "abc" true [] Sample.db H)).
Defined.

(** ** Deleting, renaming and what the board shows afterwards *)

Section Board.

Import PipelineRouter.

(** The answer of [GET /:pipelineId] and where each of its rows comes
    from. *)
Lemma board_spec (db : database) (id : Z) (auth : bool)
  (json_body : list (string * Pg.jsval)) :
  exists rows,
    get_pipelineId {| authenticated := auth;
                      params := [("pipelineId", Pg.show_int id)];
                      body := json_body |} db
    = (json (Kanban rows), db) /\
    forall r,
      In r rows <->
      exists us ps p u,
        In us (user_status db) /\ In ps (pipeline_status db) /\
        In p (pipeline db) /\ In u (user db) /\
        UserStatus.pipeline_status_id us = PipelineStatus.id ps /\
        PipelineStatus.pipeline_id ps = Pipeline.id p /\
        UserStatus.user_id us = User.id u /\
        Pipeline.id p = id /\
        r = {| pipeline_name := Pipeline.name p;
               pipeline_status_id := PipelineStatus.id ps;
               pipeline_status_name := PipelineStatus.name ps;
               order := PipelineStatus.order ps;
               user_id := User.id u;
               username := User.username u |}.
Proof.
  rewrite kanban_response. eexists. split; [reflexivity | ].
  intros r. now rewrite order_by_In, kanban_rows_spec.
Qed.

Lemma negb_int_eq (a b : Z) :
  negb (Pg.int_eq a (Some b)) = true <-> a <> b.
Proof.
  simpl. rewrite negb_true_iff. apply Z.eqb_neq.
Qed.

Lemma existsb_id_status (n : Z) (l : list PipelineStatus.row) (x : Z) :
  existsb (fun s => x =? PipelineStatus.id s)
    (filter (fun s => Pg.int_eq (PipelineStatus.id s) (Some n)) l) = true <->
  x = n /\ exists s, In s l /\ PipelineStatus.id s = n.
Proof.
  rewrite existsb_exists. split.
  - intros [s [Hs Hx]]. apply filter_In in Hs as [Hs Hn].
    simpl in Hn. apply Z.eqb_eq in Hn, Hx. split; [congruence | ].
    now exists s.
  - intros [-> [s [Hs Hn]]]. exists s. split.
    + apply filter_In. split; [exact Hs | ]. simpl. now apply Z.eqb_eq.
    + apply Z.eqb_eq. now symmetry.
Qed.

Lemma negb_true_not (b : bool) (P : Prop) :
  (b = true <-> P) -> (negb b = true <-> ~ P).
Proof.
  intros H. rewrite negb_true_iff. destruct b; split; intros H1.
  - discriminate.
  - exfalso. apply H1. now apply H.
  - intros HP. apply H in HP. discriminate.
  - reflexivity.
Qed.

End Board.

(** X5. [DELETE /pipeline_status/:id], for an id within the range of the
    column, answers 204 and takes away the status with that id together
    with the user_status rows that point to it; every other status and
    user_status row, every pipeline and every user stays.  Afterwards no
    board has a row of that status. *)
Theorem deleting_a_status_takes_its_assignments
  (db : database) (n : Z) (auth : bool)
  (json_body : list (string * Pg.jsval)) :
  Pg.int4 n ->
  exists db',
    PipelineRouter.delete_pipeline_status_id
      {| PipelineRouter.authenticated := auth;
         PipelineRouter.params := [("id", Pg.show_int n)];
         PipelineRouter.body := json_body |} db
    = (PipelineRouter.sendStatus 204, db') /\
    (forall s, In s (pipeline_status db') <->
               In s (pipeline_status db) /\ PipelineStatus.id s <> n) /\
    (forall us, In us (user_status db') <->
                In us (user_status db) /\
                ~ (UserStatus.pipeline_status_id us = n /\
                   exists s, In s (pipeline_status db) /\
                             PipelineStatus.id s = n)) /\
    pipeline db' = pipeline db /\ user db' = user db /\
    forall p, Pg.int4 p -> exists rows,
      PipelineRouter.get_pipelineId
        {| PipelineRouter.authenticated := auth;
           PipelineRouter.params := [("pipelineId", Pg.show_int p)];
           PipelineRouter.body := json_body |} db'
      = (PipelineRouter.json (PipelineRouter.Kanban rows), db') /\
      forall r, In r rows -> PipelineRouter.pipeline_status_id r <> n.
Proof.
  intros _.
  unfold PipelineRouter.delete_pipeline_status_id, PipelineRouter.param.
  simpl. unfold PipelineRouter.delete_pipeline_status.
  rewrite as_int_show. simpl PipelineRouter.query_then_catch.
  eexists. split; [reflexivity | ].
  assert (Hst : forall s,
             In s (filter (fun s => negb (Pg.int_eq (PipelineStatus.id s)
                                            (Some n)))
                     (pipeline_status db)) <->
             In s (pipeline_status db) /\ PipelineStatus.id s <> n).
  { intros s. rewrite filter_In. now rewrite negb_int_eq. }
  simpl. split; [exact Hst | ]. split; [ | split; [reflexivity | ] ].
  - intros us. rewrite filter_In.
    now rewrite (negb_true_not _ _ (existsb_id_status n _ _)).
  - split; [reflexivity | ]. intros p _.
    match goal with |- context [PipelineRouter.get_pipelineId ?q ?d] =>
      destruct (board_spec d p auth json_body) as [rows [Hrun Hrows]]
    end.
    exists rows. split; [exact Hrun | ].
    intros r Hr. apply Hrows in Hr
      as (us & ps & p0 & u & _ & Hps & _ & _ & _ & _ & _ & _ & ->).
    simpl in Hps. apply Hst in Hps. simpl. tauto.
Qed.

Lemma deleting_a_status_takes_its_assignments_witness :
  Pg.int4 2 /\
  exists db',
    PipelineRouter.delete_pipeline_status_id
      {| PipelineRouter.authenticated := true;
         PipelineRouter.params := [("id", Pg.show_int 2)];
         PipelineRouter.body := [] |} Sample.db
    = (PipelineRouter.sendStatus 204, db') /\
    map PipelineStatus.id (pipeline_status db') = [1; 3] /\
    user_status db'
    = [ {| UserStatus.user_id := 8; UserStatus.pipeline_status_id := 1 |} ].
Proof.
  assert (R : Pg.int4 2) by (unfold Pg.int4; lia).
  split; [exact R | ].
  destruct (deleting_a_status_takes_its_assignments Sample.db 2 true [] R)
    as [db' [Hrun _]].
  exists db'. split; [exact Hrun | ].
  injection Hrun as <-. split; reflexivity.
Defined.

(** X6. [DELETE /:id], for an id within the range of the column, answers
    204 and takes away the pipeline with that id; every other pipeline and
    every user stays.  The board of the id is empty afterwards. *)
Theorem deleting_a_pipeline_empties_its_board
  (db : database) (id : Z) (auth : bool)
  (json_body : list (string * Pg.jsval)) :
  Pg.int4 id ->
  exists db',
    PipelineRouter.delete_id
      {| PipelineRouter.authenticated := auth;
         PipelineRouter.params := [("id", Pg.show_int id)];
         PipelineRouter.body := json_body |} db
    = (PipelineRouter.sendStatus 204, db') /\
    (forall p, In p (pipeline db') <->
               In p (pipeline db) /\ Pipeline.id p <> id) /\
    user db' = user db /\
    PipelineRouter.get_pipelineId
      {| PipelineRouter.authenticated := auth;
         PipelineRouter.params := [("pipelineId", Pg.show_int id)];
         PipelineRouter.body := json_body |} db'
    = (PipelineRouter.json (PipelineRouter.Kanban []), db').
Proof.
  intros _.
  unfold PipelineRouter.delete_id, PipelineRouter.param.
  simpl. unfold PipelineRouter.delete_pipeline.
  rewrite as_int_show. simpl PipelineRouter.query_then_catch.
  eexists. split; [reflexivity | ].
  assert (Hp : forall p,
             In p (filter (fun p => negb (Pg.int_eq (Pipeline.id p)
                                            (Some id))) (pipeline db)) <->
             In p (pipeline db) /\ Pipeline.id p <> id).
  { intros p. rewrite filter_In. now rewrite negb_int_eq. }
  simpl. split; [exact Hp | ]. split; [reflexivity | ].
  match goal with |- PipelineRouter.get_pipelineId ?q ?d = _ =>
    destruct (board_spec d id auth json_body) as [rows [Hrun Hrows]]
  end.
  rewrite Hrun. destruct rows as [ | r rows ]; [reflexivity | exfalso].
  destruct (proj1 (Hrows r) (or_introl eq_refl))
    as (us & ps & p & u & _ & _ & Hin & _ & _ & _ & _ & Hid & _).
  simpl in Hin. apply Hp in Hin. tauto.
Qed.

Lemma deleting_a_pipeline_empties_its_board_witness :
  Pg.int4 1 /\
  exists db',
    PipelineRouter.delete_id
      {| PipelineRouter.authenticated := true;
         PipelineRouter.params := [("id", Pg.show_int 1)];
         PipelineRouter.body := [] |} Sample.db
    = (PipelineRouter.sendStatus 204, db') /\
    user db' = user Sample.db /\
    PipelineRouter.get_pipelineId
      {| PipelineRouter.authenticated := true;
         PipelineRouter.params := [("pipelineId", Pg.show_int 1)];
         PipelineRouter.body := [] |} db'
    = (PipelineRouter.json (PipelineRouter.Kanban []), db').
Proof.
  assert (R : Pg.int4 1) by (unfold Pg.int4; lia).
  split; [exact R | ].
  destruct (deleting_a_pipeline_empties_its_board Sample.db 1 true [] R)
    as [db' (Hrun & _ & Huser & Hboard)].
  exists db'. repeat split; assumption.
Defined.

Section Rename.

Import PipelineRouter.




End Rename.



(** ** Creating rows *)



(** X9. The INSERT of [POST /user_status] names a column [p_s_id], where
    the Kanban query and the UPDATE of the move name
    [pipeline_status_id].  With the column under the name the other two
    statements give it, the INSERT is refused before a value is looked at:
    whatever the request holds, the handler answers 500 and leaves every
    table as it was, and so does the router for a client with a session,
    for a user and a status that exist as for any other. *)
Theorem assigning_is_always_refused
  (db : database) (auth : bool) (bound : list (string * string))
  (json_body : list (string * Pg.jsval)) :
  PipelineRouter.post_user_status
    {| PipelineRouter.authenticated := auth;
       PipelineRouter.params := bound;
       PipelineRouter.body := json_body |} db
  = (PipelineRouter.sendStatus 500, db) /\
  PipelineRouter.dispatch PipelineRouter.router PipelineRouter.POST
    "/user_status" true json_body db
  = Some (PipelineRouter.sendStatus 500, db).
Proof.
  split; reflexivity.
Qed.




(** ** Moving a user twice *)

Section MoveTwice.

Import PipelineRouter.

Variable u : Z.

Lemma update_user_status_exists (db : database) (n : Z) :
  (exists s, In s (pipeline_status db) /\ PipelineStatus.id s = n) ->
  update_user_status (Pg.JNumber n) (Pg.JString (Pg.show_int u)) db
  = Some (if existsb (fun us => Pg.int_eq (UserStatus.user_id us) (Some u))
               (user_status db)
          then with_user_status db (map (to_status u n) (user_status db))
          else db).
Proof.
  intros [s [Hs Hid]]. unfold update_user_status.
  rewrite as_int_number, as_int_show.
  destruct (existsb _ (user_status db)); [ | reflexivity ].
  replace (existsb (fun s0 => PipelineStatus.id s0 =? n) (pipeline_status db))
    with true; [reflexivity | ].
  symmetry. apply existsb_exists. exists s. split; [exact Hs | ].
  now apply Z.eqb_eq.
Qed.

Lemma to_status_twice (a b : Z) (l : list UserStatus.row) :
  map (to_status u b) (map (to_status u a) l) = map (to_status u b) l.
Proof.
  rewrite map_map. apply map_ext. intros us. unfold to_status, Pg.int_eq.
  destruct (UserStatus.user_id us =? u) eqn:E; simpl; now rewrite E.
Qed.

Lemma to_status_same_users (a : Z) (l : list UserStatus.row) :
  existsb (fun us => Pg.int_eq (UserStatus.user_id us) (Some u))
    (map (to_status u a) l)
  = existsb (fun us => Pg.int_eq (UserStatus.user_id us) (Some u)) l.
Proof.
  induction l as [ | us l IH ]; [reflexivity | ].
  cbn [map existsb]. rewrite IH. f_equal. unfold to_status, Pg.int_eq.
  now destruct (UserStatus.user_id us =? u) eqn:E.
Qed.

End MoveTwice.

(** X11. Moving a user, of an id within the range of the column, to
    status [a] and then to status [b] is answered 200 both times and ends
    in the tables that moving the user to [b] alone gives: nothing of the
    stay in [a] is kept. *)
Theorem moving_twice_is_moving_once
  (db : database) (u a b : Z) (auth : bool) :
  Pg.int4 u ->
  (exists s, In s (pipeline_status db) /\ PipelineStatus.id s = a) ->
  (exists s, In s (pipeline_status db) /\ PipelineStatus.id s = b) ->
  let move n := PipelineRouter.put_user_status_userId
                  {| PipelineRouter.authenticated := auth;
                     PipelineRouter.params := [("userId", Pg.show_int u)];
                     PipelineRouter.body :=
                       [("pipeline_status_id", Pg.JNumber n)] |} in
  exists db1 db2,
    move a db = (PipelineRouter.sendStatus 200, db1) /\
    move b db1 = (PipelineRouter.sendStatus 200, db2) /\
    move b db = (PipelineRouter.sendStatus 200, db2).
Proof.
  intros _ Ha Hb move.
  assert (Hmove : forall n d,
             (exists s, In s (pipeline_status d) /\ PipelineStatus.id s = n) ->
             move n d
             = (PipelineRouter.sendStatus 200,
                if existsb (fun us => Pg.int_eq (UserStatus.user_id us)
                                        (Some u)) (user_status d)
                then with_user_status d
                       (map (to_status u n) (user_status d))
                else d)).
  { intros n d Hn.
    unfold move, PipelineRouter.put_user_status_userId,
      PipelineRouter.param, PipelineRouter.field. simpl.
    now rewrite (update_user_status_exists u d n Hn). }
  rewrite (Hmove a db Ha), (Hmove b db Hb).
  destruct (existsb _ (user_status db)) eqn:Hrows.
  - eexists. eexists. split; [reflexivity | ].
    rewrite Hmove by exact Hb.
    simpl user_status. rewrite to_status_same_users, Hrows.
    rewrite to_status_twice. split; reflexivity.
  - eexists. eexists. split; [reflexivity | ].
    rewrite (Hmove b db Hb), Hrows. split; reflexivity.
Qed.

Lemma moving_twice_is_moving_once_witness :
  (Pg.int4 7 /\
   (exists s, In s (pipeline_status Sample.db) /\ PipelineStatus.id s = 1) /\
   (exists s, In s (pipeline_status Sample.db) /\ PipelineStatus.id s = 3)) /\
  exists db1 db2,
    PipelineRouter.put_user_status_userId
      {| PipelineRouter.authenticated := true;
         PipelineRouter.params := [("userId", Pg.show_int 7)];
         PipelineRouter.body := [("pipeline_status_id", Pg.JNumber 1)] |}
      Sample.db
    = (PipelineRouter.sendStatus 200, db1) /\
    PipelineRouter.put_user_status_userId
      {| PipelineRouter.authenticated := true;
         PipelineRouter.params := [("userId", Pg.show_int 7)];
         PipelineRouter.body := [("pipeline_status_id", Pg.JNumber 3)] |}
      db1
    = (PipelineRouter.sendStatus 200, db2) /\
    PipelineRouter.put_user_status_userId
      {| PipelineRouter.authenticated := true;
         PipelineRouter.params := [("userId", Pg.show_int 7)];
         PipelineRouter.body := [("pipeline_status_id", Pg.JNumber 3)] |}
      Sample.db
    = (PipelineRouter.sendStatus 200, db2).
Proof.
  assert (H1 : exists s, In s (pipeline_status Sample.db)
                         /\ PipelineStatus.id s = 1).
  { eexists. split; [ simpl; left; reflexivity | reflexivity ]. }
  assert (H3 : exists s, In s (pipeline_status Sample.db)
                         /\ PipelineStatus.id s = 3).
  { eexists. split; [ simpl; right; right; left; reflexivity | reflexivity ]. }
  assert (R : Pg.int4 7) by (unfold Pg.int4; lia).
  split; [ split; [exact R | split; assumption] | ].
  exact (moving_twice_is_moving_once Sample.db 7 1 3 true R H1 H3).
Defined.

(** ** More on forms *)

(** X12. [GET /:formId/all] for an id within the range of the column
    that no form carries answers 200 with no document (the first row of
    an empty result), not 404, and changes nothing. *)
Theorem form_that_does_not_exist (db : database) (fid : Z) :
  Pg.int4 fid ->
  (forall f, In f (forms db) -> Forms.id f <> fid) ->
  FormRouter.get_formId_all (Pg.show_int fid) db
  = ({| FormRouter.status := 200;
        FormRouter.sent := FormRouter.Document None |}, db).
Proof.
  intros _ Hno.
  unfold FormRouter.get_formId_all, FormRouter.select_form_all.
  rewrite as_int_show.
  rewrite (filter_none _ (forms db)); [reflexivity | ].
  intros f Hf. simpl. apply Z.eqb_neq. now apply Hno.
Qed.

Lemma form_that_does_not_exist_witness :
  Pg.int4 5 /\
  (forall f, In f (forms Sample.db) -> Forms.id f <> 5) /\
  FormRouter.get_formId_all (Pg.show_int 5) Sample.db
  = ({| FormRouter.status := 200;
        FormRouter.sent := FormRouter.Document None |}, Sample.db).
Proof.
  assert (H : forall f, In f (forms Sample.db) -> Forms.id f <> 5).
  { simpl. intros f [<- | []]. discriminate. }
  assert (R : Pg.int4 5) by (unfold Pg.int4; lia).
  split; [exact R | ]. split; [exact H | ].
  exact (form_that_does_not_exist Sample.db 5 R H).
Defined.

Section Nulls.

Import FormRouter.

Lemma json_agg_none {A : Type} (l : list A) : json_agg l = None <-> l = [].
Proof. destruct l; simpl; split; intros H; now try discriminate H. Qed.

Lemma json_agg_never_empty {A : Type} (l : list A) : json_agg l <> Some [].
Proof. destruct l; discriminate. Qed.

Lemma map_filter_nil {A B : Type} (f : A -> B) (g : A -> bool)
  (l : list A) :
  map f (filter g l) = [] <-> forall x, In x l -> g x = false.
Proof.
  split.
  - intros H x Hx. destruct (g x) eqn:E; [ | reflexivity ].
    assert (Hin : In (f x) (map f (filter g l)))
      by (apply in_map, filter_In; auto).
    rewrite H in Hin. contradiction.
  - intros H. now rewrite (filter_none g l H).
Qed.

End Nulls.

(** X13. In the document of a form, [sections] is [null] exactly when the
    form has no section, and [questions] of a section is [null] exactly
    when every question of the section is archived (or there is none);
    neither is ever an empty array. *)
Theorem empty_lists_are_null (db : database) (fid : Z) :
  (exists f, In f (forms db) /\ Forms.id f = fid) ->
  exists doc,
    FormRouter.get_formId_all (Pg.show_int fid) db
    = ({| FormRouter.status := 200;
          FormRouter.sent := FormRouter.Document (Some doc) |}, db) /\
    (FormRouter.f_sections doc = None <->
     forall s, In s (sections db) -> Sections.form_id s <> fid) /\
    FormRouter.f_sections doc <> Some [] /\
    forall ss sj,
      FormRouter.f_sections doc = Some ss -> In sj ss ->
      FormRouter.s_questions sj <> Some [] /\
      exists s,
        In s (sections db) /\ Sections.form_id s = fid /\
        FormRouter.s_id sj = Sections.id s /\
        (FormRouter.s_questions sj = None <->
         forall q, In q (question db) ->
                   Question.section_id q = Sections.id s ->
                   Question.archived q = true).
Proof.
  intros [f [Hf Hid]].
  unfold FormRouter.get_formId_all, FormRouter.select_form_all.
  rewrite as_int_show.
  destruct (filter (fun f0 => Pg.int_eq (Forms.id f0) (Some fid)) (forms db))
    as [ | f0 rest ] eqn:Hrows.
  { exfalso.
    assert (Hin : In f (filter (fun f0 => Pg.int_eq (Forms.id f0) (Some fid))
                          (forms db))).
    { apply filter_In. split; [exact Hf | ]. simpl. now apply Z.eqb_eq. }
    rewrite Hrows in Hin. contradiction. }
  assert (Hf0 : Forms.id f0 = fid).
  { assert (Hin : In f0 (filter (fun f1 => Pg.int_eq (Forms.id f1) (Some fid))
                           (forms db)))
      by (rewrite Hrows; now left).
    apply filter_In in Hin as [_ H]. simpl in H. now apply Z.eqb_eq. }
  exists (FormRouter.form_object db f0). split; [reflexivity | ].
  unfold FormRouter.form_object. simpl. rewrite Hf0.
  split; [ | split ].
  - rewrite json_agg_none, map_filter_nil. split; intros H s Hs.
    + apply Z.eqb_neq. now apply H.
    + apply Z.eqb_neq. now apply H.
  - apply json_agg_never_empty.
  - intros ss sj Hss Hsj.
    assert (Hin : In sj (map (FormRouter.section_object db)
                           (filter (fun s => Sections.form_id s =? fid)
                              (sections db)))).
    { destruct (map _ _) as [ | x l ]; [discriminate Hss | ].
      simpl in Hss. now injection Hss as <-. }
    apply in_map_iff in Hin as [s [<- Hs]].
    apply filter_In in Hs as [Hs Hform]. apply Z.eqb_eq in Hform.
    unfold FormRouter.section_object. simpl.
    split; [apply json_agg_never_empty | ].
    exists s. repeat split; auto.
    + intros H q Hq Hsec.
      apply json_agg_none in H.
      pose proof (proj1 (map_filter_nil _ _ _) H q Hq) as Hg.
      simpl in Hg. apply Z.eqb_eq in Hsec. rewrite Hsec in Hg.
      simpl in Hg. now destruct (Question.archived q).
    + intros H. apply json_agg_none, map_filter_nil.
      intros q Hq. simpl.
      destruct (Z.eqb_spec (Question.section_id q) (Sections.id s))
        as [E | E]; [ | reflexivity ].
      simpl. now rewrite (H q Hq E).
Qed.

Lemma empty_lists_are_null_witness :
  (exists f, In f (forms Sample.db) /\ Forms.id f = 1) /\
  exists doc,
    FormRouter.get_formId_all (Pg.show_int 1) Sample.db
    = ({| FormRouter.status := 200;
          FormRouter.sent := FormRouter.Document (Some doc) |}, Sample.db) /\
    FormRouter.f_sections doc <> Some [].
Proof.
  assert (H : exists f, In f (forms Sample.db) /\ Forms.id f = 1).
  { eexists. split; [ simpl; left; reflexivity | reflexivity ]. }
  split; [exact H | ].
  destruct (empty_lists_are_null Sample.db 1 H) as [doc (Hrun & _ & Hne & _)].
  exists doc. split; assumption.
Defined.



(** ** More on credentials *)

Section Salting.

Lemma append_same_length_inj (a b x y : string) :
  String.length a = String.length b ->
  String.append a x = String.append b y -> a = b.
Proof.
  revert b. induction a as [ | c a IH ]; intros [ | d b ] Hlen H;
    try discriminate Hlen; [reflexivity | ].
  simpl in *. injection H as -> H. f_equal. apply IH; [ | exact H ].
  now injection Hlen.
Qed.

End Salting.

(** X15. A stored password is 60 characters long and begins with the cost
    factor of the module and the random characters of its salt:
    [$2a$10$], then the 22 characters drawn.  So the same password hashed
    with different random characters gives different stored texts, and it
    verifies against each of them. *)
Theorem same_password_different_salts
  (crypt : string -> string -> string) (noise1 noise2 p : string) :
  bcrypt_core crypt ->
  String.length noise1 = 22%nat -> String.length noise2 = 22%nat ->
  String.length (Encryption.encryptPassword crypt noise1 p) = 60%nat /\
  substring 0 29 (Encryption.encryptPassword crypt noise1 p)
  = String.append "$2a$10$" noise1 /\
  (noise1 <> noise2 ->
   Encryption.encryptPassword crypt noise1 p
   <> Encryption.encryptPassword crypt noise2 p) /\
  Encryption.comparePassword crypt p
    (Encryption.encryptPassword crypt noise1 p) = true /\
  Encryption.comparePassword crypt p
    (Encryption.encryptPassword crypt noise2 p) = true.
Proof.
  intros Hfmt H1 H2.
  assert (Hsalt : forall noise,
             Encryption.genSaltSync Encryption.SALT_WORK_FACTOR noise
             = String.append "$2a$10$" noise) by reflexivity.
  rewrite !(encryptPassword_shape crypt) by assumption.
  repeat split.
  - rewrite string_length_append, (salt_length noise1 H1).
    now rewrite (proj1 (Hfmt _ _)).
  - rewrite <- (salt_length noise1 H1) at 1.
    rewrite substring_prefix. apply Hsalt.
  - intros Hne E. apply Hne. rewrite !Hsalt in E.
    simpl in E. repeat injection E as E.
    apply (append_same_length_inj _ _ _ _ (eq_trans H1 (eq_sym H2)) E).
  - rewrite <- (encryptPassword_shape crypt noise1 H1).
    rewrite (comparePassword_against_hash crypt Hfmt noise1 H1).
    apply String.eqb_refl.
  - rewrite <- (encryptPassword_shape crypt noise2 H2).
    rewrite (comparePassword_against_hash crypt Hfmt noise2 H2).
    apply String.eqb_refl.
Qed.

Lemma same_password_different_salts_witness :
  (bcrypt_core Sample.toy_core /\
   String.length "abcdefghijklmnopqrstuv" = 22%nat /\
   String.length "ABCDEFGHIJKLMNOPQRSTUV" = 22%nat) /\
  ("abcdefghijklmnopqrstuv" <> "ABCDEFGHIJKLMNOPQRSTUV" ->
   Encryption.encryptPassword Sample.toy_core "abcdefghijklmnopqrstuv"
     "correct horse"
   <> Encryption.encryptPassword Sample.toy_core "ABCDEFGHIJKLMNOPQRSTUV"
        "correct horse").
Proof.
  split; [ split; [exact toy_core_format | split; reflexivity] | ].
  exact (proj1 (proj2 (proj2
           (same_password_different_salts Sample.toy_core
              "abcdefghijklmnopqrstuv" "ABCDEFGHIJKLMNOPQRSTUV"
              "correct horse" toy_core_format eq_refl eq_refl)))).
Defined.

(** ** More on the client store *)

(** X16. Two runs of [fetchPipeline], one after the other, send two
    requests, and the store ends with what the second one brought: its
    data when it was fulfilled, [[]] when it was rejected, whatever the
    first one brought; [selectedPipeline] is as it was. *)
Theorem fetching_twice_keeps_the_second
  (net : Store.network) (w : Store.world) :
  let n := List.length (Store.requests w) in
  let list_all := Store.Get "/api/pipeline" in
  Store.fetchPipeline net (Store.fetchPipeline net w)
  = {| Store.store :=
         {| Store.pipelines :=
              match net (S n) list_all with
              | Store.Fulfilled data => data
              | Store.Rejected => Store.JArr []
              end;
            Store.selectedPipeline :=
              Store.selectedPipeline (Store.store w) |};
       Store.requests := Store.requests w ++ [list_all; list_all] |}.
Proof.
  intros n list_all.
  unfold Store.fetchPipeline, Store.axios.
  fold list_all. fold n.
  assert (Hlen : forall st,
             List.length
               (Store.requests
                  (Store.set_pipelines st
                     {| Store.store := Store.store w;
                        Store.requests := Store.requests w ++ [list_all] |}))
             = S n).
  { intros st. simpl. rewrite length_app. simpl. unfold n. lia. }
  destruct (net n list_all) as [d1 | ]; rewrite Hlen;
    destruct (net (S n) list_all) as [d2 | ]; simpl;
    now rewrite <- app_assoc.
Qed.

(** ** The add-user dialog *)

Section Dialog.

Import Store AddUserToPipeline.

Lemma map_applicants_spec (items : list json) (l : list (option json)) :
  map_applicants items = Normal l ->
  forall e, In e l <->
            exists status, In status items /\
                           prop "applicants" status = Normal e.
Proof.
  revert l. induction items as [ | status rest IH ]; simpl; intros l H.
  - injection H as <-. intros e. split; [intros [] | intros [s [[] _]]].
  - destruct (prop "applicants" status) as [a | ] eqn:Ha;
      [ | discriminate H ].
    simpl in H.
    destruct (map_applicants rest) as [l' | ]; [ | discriminate H ].
    simpl in H. injection H as <-.
    intros e. simpl. rewrite (IH l' eq_refl e). split.
    + intros [<- | [s [Hs He]]].
      * exists status. auto.
      * exists s. auto.
    + intros [s [[<- | Hs] He]].
      * left. congruence.
      * right. exists s. auto.
Qed.

Lemma flat_spec (l : list (option json)) (x : option json) :
  In x (flat l) <->
  exists e, In e l /\
            match e with
            | Some (JArr items) => exists a, In a items /\ x = Some a
            | _ => x = e
            end.
Proof.
  unfold flat. rewrite in_flat_map. split.
  - intros [e [He Hx]]. exists e. split; [exact He | ].
    destruct e as [ [ | | | | items | ] | ]; simpl in Hx;
      try (destruct Hx as [<- | []]; reflexivity).
    apply in_map_iff in Hx as [a [<- Ha]]. now exists a.
  - intros [e [He Hx]]. exists e. split; [exact He | ].
    destruct e as [ [ | | | | items | ] | ]; simpl;
      try (left; now symmetry).
    destruct Hx as [a [Ha ->]]. now apply in_map.
Qed.

(** The elements of [unfilteredUsers] are the applicants. *)
Lemma unfilteredUsers_spec (items : list json) (l : list (option json))
  (x : option json) :
  map_applicants items = Normal l ->
  (In x (filter truthy (flat l)) <->
   exists a, x = Some a /\ applicant items a).
Proof.
  intros Hl. rewrite filter_In, flat_spec. unfold applicant. split.
  - intros [[e [He Hx]] Ht].
    apply (map_applicants_spec _ _ Hl) in He as [status [Hs He]].
    destruct x as [a | ]; [ | discriminate Ht ].
    exists a. split; [reflexivity | ]. split; [exact Ht | ].
    destruct e as [v | ]; [ | discriminate Hx ].
    exists status, v. split; [exact Hs | ]. split; [exact He | ].
    destruct v; try (now injection Hx).
    destruct Hx as [a' [Ha' E]]. now injection E as ->.
  - intros [a [-> [Ht [status [v (Hs & Hv & Ha)]]]]].
    split; [ | exact Ht ].
    exists (Some v). split.
    + apply (map_applicants_spec _ _ Hl). now exists status.
    + destruct v; try (now subst). now exists a.
Qed.

Lemma prop_id_truthy (a : json) :
  truthy (Some a) = true -> prop "id" a = Normal (id_of a).
Proof. now destruct a. Qed.

Lemma some_same_id_spec (unfilteredUsers : list (option json))
  (user : json) (b : bool) :
  (forall x, In x unfilteredUsers -> truthy x = true) ->
  some_same_id unfilteredUsers user = Normal b ->
  (b = true <->
   exists a, In (Some a) unfilteredUsers /\
             strict_eq (id_of a) (id_of user) = true).
Proof.
  induction unfilteredUsers as [ | x rest IH ]; simpl; intros Ht H.
  - injection H as <-. split; [discriminate | intros [a [[] _]]].
  - assert (Hx : truthy x = true) by (apply Ht; now left).
    destruct x as [a | ]; [ | discriminate Hx ].
    simpl in H. rewrite (prop_id_truthy a Hx) in H. simpl in H.
    destruct user; try discriminate H; simpl in H;
      match type of H with
      | (if strict_eq ?p ?q then _ else _) = _ =>
          destruct (strict_eq p q) eqn:E
      end;
      try (injection H as <-; split; [ intros _; exists a; auto | auto ]);
      (rewrite (IH (fun y Hy => Ht y (or_intror Hy)) H); split;
       [ intros [a' [Ha' E']]; exists a'; auto
       | intros [a' [[Ha' | Ha'] E']];
         [ injection Ha' as <-; simpl in E'; congruence
         | exists a'; auto ] ]).
Qed.

Lemma filter_users_spec (unfilteredUsers : list (option json))
  (foundUsers avail : list json) :
  (forall x, In x unfilteredUsers -> truthy x = true) ->
  filter_users unfilteredUsers foundUsers = Normal avail ->
  forall user,
    In user avail <->
    In user foundUsers /\
    forall a, In (Some a) unfilteredUsers ->
              strict_eq (id_of a) (id_of user) = false.
Proof.
  intros Ht. revert avail.
  induction foundUsers as [ | u rest IH ]; simpl; intros avail H user.
  - injection H as <-. simpl. tauto.
  - destruct (some_same_id unfilteredUsers u) as [taken | ] eqn:Hsome;
      [ | discriminate H ].
    simpl in H.
    destruct (filter_users unfilteredUsers rest) as [l | ];
      [ | discriminate H ].
    simpl in H. injection H as <-.
    pose proof (some_same_id_spec _ _ _ Ht Hsome) as Htaken.
    specialize (IH l eq_refl user).
    destruct taken.
    + rewrite IH. split; [tauto | ].
      intros [[<- | Hin] Hno]; [ | tauto ].
      destruct (proj1 Htaken eq_refl) as [a [Ha E]].
      rewrite (Hno a Ha) in E. discriminate E.
    + simpl. rewrite IH. split.
      * intros [<- | [Hin Hno]]; [ | tauto ].
        split; [now left | ]. intros a Ha.
        destruct (strict_eq (id_of a) (id_of u)) eqn:E; [ | reflexivity ].
        assert (false = true) by (apply Htaken; now exists a).
        discriminate.
      * intros [[<- | Hin] Hno]; [now left | right; tauto].
Qed.

End Dialog.

(** X17. When the list of users to offer can be computed from a board
    that has statuses, it holds exactly the found users whose id is the
    id of no applicant of any status of the board. *)
Theorem offered_users_are_not_on_the_board
  (foundUsers statuses avail : list Store.json) (board : Store.json) :
  AddUserToPipeline.prop "statuses" board
  = AddUserToPipeline.Normal (Some (Store.JArr statuses)) ->
  AddUserToPipeline.usersAvailableToAdd foundUsers board
  = AddUserToPipeline.Normal avail ->
  forall user,
    In user avail <->
    In user foundUsers /\
    forall a, applicant statuses a ->
              AddUserToPipeline.strict_eq (id_of a) (id_of user) = false.
Proof.
  intros Hst H user. unfold AddUserToPipeline.usersAvailableToAdd in H.
  destruct foundUsers as [ | u rest ].
  - injection H as <-. simpl. tauto.
  - rewrite Hst in H. cbn [AddUserToPipeline.bind] in H.
    destruct (AddUserToPipeline.map_applicants statuses) as [l | ] eqn:Hl;
      [ | discriminate H ].
    cbn [AddUserToPipeline.bind] in H.
    rewrite (filter_users_spec _ _ _
               (fun x Hx => proj2 (proj1 (filter_In _ _ _) Hx)) H).
    apply and_iff_compat_l. split.
    + intros Hno a Ha. apply Hno.
      apply (unfilteredUsers_spec statuses l (Some a) Hl). now exists a.
    + intros Hno a Ha. apply Hno.
      apply (unfilteredUsers_spec statuses l (Some a) Hl) in Ha
        as [a' [E Ha']]. now injection E as ->.
Qed.

Lemma offered_users_are_not_on_the_board_witness :
  (AddUserToPipeline.prop "statuses" SampleDialog.board
   = AddUserToPipeline.Normal
       (Some (Store.JArr
                [ Store.JObj
                    [ ("name", Store.JStr "Applied");
                      ("applicants",
                       Store.JArr [ Store.JObj [("id", Store.JNum 7)];
                                    Store.JNull ]) ];
                  Store.JObj [ ("name", Store.JStr "Interview") ] ])) /\
   AddUserToPipeline.usersAvailableToAdd SampleDialog.found SampleDialog.board
   = AddUserToPipeline.Normal
       [ Store.JObj [("id", Store.JNum 9);
                     ("first_name", Store.JStr "Nina")] ]) /\
  forall user,
    In user [ Store.JObj [("id", Store.JNum 9);
                          ("first_name", Store.JStr "Nina")] ] <->
    In user SampleDialog.found /\
    forall a,
      applicant
        [ Store.JObj
            [ ("name", Store.JStr "Applied");
              ("applicants",
               Store.JArr [ Store.JObj [("id", Store.JNum 7)];
                            Store.JNull ]) ];
          Store.JObj [ ("name", Store.JStr "Interview") ] ] a ->
      AddUserToPipeline.strict_eq (id_of a) (id_of user) = false.
Proof.
  split; [ split; reflexivity | ].
  exact (offered_users_are_not_on_the_board SampleDialog.found _ _
           SampleDialog.board eq_refl eq_refl).
Defined.

(** X18. With users found, the list of users to offer can only be
    computed from a selection that has an array of statuses.  The
    selection as the pipeline slice of the store holds it has none: for
    the empty selection [{}] with which the slice starts and to which a
    failed fetch resets it, and for an array such as the rows that
    [GET /:pipelineId] sends, the computation throws a TypeError.  With
    no user found it gives the empty list without looking at the
    selection. *)
Theorem found_users_need_statuses
  (foundUsers : list Store.json) (selection : Store.json)
  (net : Store.network) (pipelineId : string) (w : Store.world) :
  foundUsers <> [] ->
  ((forall statuses,
       AddUserToPipeline.prop "statuses" selection
       <> AddUserToPipeline.Normal (Some (Store.JArr statuses))) ->
   AddUserToPipeline.usersAvailableToAdd foundUsers selection
   = AddUserToPipeline.TypeError) /\
  AddUserToPipeline.usersAvailableToAdd foundUsers
    (Store.selectedPipeline Store.initial)
  = AddUserToPipeline.TypeError /\
  (net (List.length (Store.requests w))
     (Store.Get (String.append "/api/pipeline/" pipelineId))
   = Store.Rejected ->
   AddUserToPipeline.usersAvailableToAdd foundUsers
     (Store.selectedPipeline
        (Store.store (Store.fetchPipelineById net pipelineId w)))
   = AddUserToPipeline.TypeError) /\
  (forall rows,
      AddUserToPipeline.usersAvailableToAdd foundUsers (Store.JArr rows)
      = AddUserToPipeline.TypeError) /\
  AddUserToPipeline.usersAvailableToAdd [] selection
  = AddUserToPipeline.Normal [].
Proof.
  intros Hfound.
  destruct foundUsers as [ | u rest ]; [contradiction | ].
  repeat split.
  - intros Hno. unfold AddUserToPipeline.usersAvailableToAdd.
    destruct (AddUserToPipeline.prop "statuses" selection)
      as [ [ [ | | | | statuses | ] | ] | ] eqn:E; try reflexivity.
    exfalso. now apply (Hno statuses).
  - intros Hrej.
    unfold Store.fetchPipelineById, Store.axios. now rewrite Hrej.
Qed.

Lemma found_users_need_statuses_witness :
  SampleDialog.found <> [] /\
  AddUserToPipeline.usersAvailableToAdd SampleDialog.found
    (Store.selectedPipeline Store.initial)
  = AddUserToPipeline.TypeError.
Proof.
  assert (H : SampleDialog.found <> []) by discriminate.
  split; [exact H | ].
  exact (proj1 (proj2 (found_users_need_statuses SampleDialog.found Store.JNull
                         Sample.offline "1" Sample.world H))).
Defined.

(** X19. Whenever the list of users to offer could be computed for users
    found, the selection passes the first check of [addUserToPipeline]:
    with a selected user that counts as true, [addUserToPipeline] calls
    [addUserStatus] once, with the [pipelineId] prop, the id of the
    selected user and the [initialPipelineStatusId] prop, and then clears
    the search, the selected user and the dialog; it alerts nothing. *)
Theorem offer_then_add
  (foundUsers avail : list Store.json) (selection selectedUser : Store.json)
  (pipelineId initialPipelineStatusId : option Store.json) :
  foundUsers <> [] ->
  AddUserToPipeline.usersAvailableToAdd foundUsers selection
  = AddUserToPipeline.Normal avail ->
  AddUserToPipeline.truthy (Some selectedUser) = true ->
  AddUserToPipeline.addUserToPipeline selection selectedUser pipelineId
    initialPipelineStatusId
  = [ AddUserToPipeline.addUserStatus
        [ ("pipeline_id", pipelineId);
          ("user_id", id_of selectedUser);
          ("pipeline_status_id", initialPipelineStatusId) ];
      AddUserToPipeline.setSearchString EmptyString;
      AddUserToPipeline.setSelectedUser Store.JNull;
      AddUserToPipeline.setShowModal false;
      AddUserToPipeline.searchingApplicant EmptyString ].
Proof.
  intros Hfound H Huser.
  destruct foundUsers as [ | u rest ]; [contradiction | ].
  unfold AddUserToPipeline.usersAvailableToAdd in H.
  destruct selection as [ | | | | | members ]; try discriminate H.
  destruct members as [ | m members ]; [discriminate H | ].
  unfold AddUserToPipeline.addUserToPipeline. rewrite Huser.
  reflexivity.
Qed.

Lemma offer_then_add_witness :
  (SampleDialog.found <> [] /\
   AddUserToPipeline.usersAvailableToAdd SampleDialog.found SampleDialog.board
   = AddUserToPipeline.Normal
       [ Store.JObj [("id", Store.JNum 9);
                     ("first_name", Store.JStr "Nina")] ] /\
   AddUserToPipeline.truthy
     (Some (Store.JObj [("id", Store.JNum 9);
                        ("first_name", Store.JStr "Nina")])) = true) /\
  AddUserToPipeline.addUserToPipeline SampleDialog.board
    (Store.JObj [("id", Store.JNum 9); ("first_name", Store.JStr "Nina")])
    (Some (Store.JNum 1)) (Some (Store.JNum 1))
  = [ AddUserToPipeline.addUserStatus
        [ ("pipeline_id", Some (Store.JNum 1));
          ("user_id", Some (Store.JNum 9));
          ("pipeline_status_id", Some (Store.JNum 1)) ];
      AddUserToPipeline.setSearchString EmptyString;
      AddUserToPipeline.setSelectedUser Store.JNull;
      AddUserToPipeline.setShowModal false;
      AddUserToPipeline.searchingApplicant EmptyString ].
Proof.
  assert (H : SampleDialog.found <> []) by discriminate.
  split; [ repeat split; [exact H] | ].
  exact (offer_then_add SampleDialog.found _ SampleDialog.board
           (Store.JObj [("id", Store.JNum 9);
                        ("first_name", Store.JStr "Nina")])
           (Some (Store.JNum 1)) (Some (Store.JNum 1)) H eq_refl eq_refl).
Defined.
